(** * lowdown: the library front end (library.c)

    A shallow embedding of [library.c] of lowdown: the error-string table,
    the rendering pipeline ([lowdown_buf], [lowdown_file]), the two metadata
    date normalisers ([date2str], [rcsdate2str]), the roff serialiser
    ([serialise_roff]) and the standalone envelope
    ([lowdown_standalone_open], [lowdown_standalone_close]).

    Conventions of the embedding.
    - A C string is the [string] of its bytes before the terminating NUL.
    - [unsigned int] is 32 bits wide: a value is an [N] below [2^32].
    - A growable buffer ([hbuf]) is the [string] of its contents; the
      functions that write to one take it and give it back.
    - What C leaves undefined (reading through a null pointer, reading an
      array out of bounds) is the result [None]. *)

From Stdlib Require Import Bool Arith NArith ZArith Lia List Ascii String.
Import ListNotations.

Open Scope string_scope.

(* ================================================================== *)
(** ** The C library, as far as library.c uses it *)

Module Libc.

(** [isspace] in the C locale: space, and the controls \t \n \v \f \r. *)
Definition isspace (c : ascii) : bool :=
  let n := N_of_ascii c in
  ((n =? 32) || ((9 <=? n) && (n <=? 13)))%N.

Definition isdigit (c : ascii) : bool :=
  let n := N_of_ascii c in
  ((48 <=? n) && (n <=? 57))%N.

Definition strlen (s : string) : nat := String.length s.

(** [strcmp a b == 0]. *)
Definition streq (a b : string) : bool := String.eqb a b.

(** The modulus of [unsigned int]. *)
Definition UINT_MODULUS : N := 2 ^ 32.

(** *** Decimal digits *)

Definition digit_char (d : N) : ascii := ascii_of_N (48 + d).
Definition digit_value (c : ascii) : N := N_of_ascii c - 48.

(** The decimal numeral of [n], most significant digit first.  [fuel]
    bounds the number of digits. *)
Fixpoint utoa_fuel (fuel : nat) (n : N) : string :=
  match fuel with
  | O => ""
  | S f =>
      (if (n <? 10)%N then "" else utoa_fuel f (n / 10))
        ++ String (digit_char (n mod 10)) ""
  end.

Definition utoa (n : N) : string :=
  utoa_fuel (S (N.to_nat (N.log2 n))) n.

Fixpoint zeros (k : nat) : string :=
  match k with
  | O => ""
  | S k' => String "0" (zeros k')
  end.

(** A precision [p] asks for at least [p] digits. *)
Definition zero_pad (p : nat) (s : string) : string :=
  zeros (p - String.length s) ++ s.

(** *** Formatted output: the conversions library.c uses *)

Inductive arg : Type :=
| U (n : N)
| Str (s : string).

Inductive spec : Type :=
| Lit (c : ascii)
| Fmt_u (precision : nat)
| Fmt_s.

Fixpoint specs (fmt : string) : list spec :=
  match fmt with
  | "" => []
  | String "%" (String "u" r) => Fmt_u 1 :: specs r
  | String "%" (String "." (String "2" (String "u" r))) => Fmt_u 2 :: specs r
  | String "%" (String "s" r) => Fmt_s :: specs r
  | String c r => Lit c :: specs r
  end.

(** An argument of the wrong kind, or a missing one, ends the output
    (C leaves the call undefined; library.c never makes such a call). *)
Fixpoint format (ss : list spec) (args : list arg) : string :=
  match ss with
  | [] => ""
  | Lit c :: ss' => String c (format ss' args)
  | Fmt_u p :: ss' =>
      match args with
      | U n :: args' => zero_pad p (utoa n) ++ format ss' args'
      | _ => ""
      end
  | Fmt_s :: ss' =>
      match args with
      | Str s :: args' => s ++ format ss' args'
      | _ => ""
      end
  end.

Definition sprintf (fmt : string) (args : list arg) : string :=
  format (specs fmt) args.

(** [snprintf(buf, size, fmt, ...)]: at most [size - 1] characters are
    stored, followed by the NUL. *)
Definition snprintf (size : nat) (fmt : string) (args : list arg) : string :=
  substring 0 (size - 1) (sprintf fmt args).

(** *** Formatted input: the directives library.c uses *)

Inductive directive : Type :=
| Conv_u
| White
| Ordinary (c : ascii).

Fixpoint directives (fmt : string) : list directive :=
  match fmt with
  | "" => []
  | String "%" (String "u" r) => Conv_u :: directives r
  | String c r =>
      (if isspace c then White else Ordinary c) :: directives r
  end.

Fixpoint skip_space (s : string) : string :=
  match s with
  | "" => ""
  | String c s' => if isspace c then skip_space s' else s
  end.

Fixpoint scan_digits (acc : N) (s : string) : N * string :=
  match s with
  | "" => (acc, "")
  | String c s' =>
      if isdigit c then scan_digits (10 * acc + digit_value c) s'
      else (acc, s)
  end.

(** The value [%u] stores for a numeral read with sign [neg]: negation
    and reduction in [unsigned int].  (C leaves a numeral that does not
    fit undefined; the usual implementations keep the low 32 bits of a
    numeral below 2^64.) *)
Definition to_uint (neg : bool) (n : N) : N :=
  if neg then ((UINT_MODULUS - n mod UINT_MODULUS) mod UINT_MODULUS)%N
  else (n mod UINT_MODULUS)%N.

Inductive conv : Type :=
| Converted (n : N) (rest : string)
| NoMatch
| NoInput.

(** [%u]: skip white space, an optional sign, then at least one digit. *)
Definition scan_u (s : string) : conv :=
  match skip_space s with
  | "" => NoInput
  | String c s' =>
      let '(neg, t) :=
        if (c =? "-")%char then (true, s')
        else if (c =? "+")%char then (false, s')
        else (false, String c s') in
      match t with
      | "" => NoMatch
      | String d _ =>
          if isdigit d then
            let '(n, rest) := scan_digits 0 t in
            Converted (to_uint neg n) rest
          else NoMatch
      end
  end.

Inductive stop : Type :=
| Complete
| MatchingFailure
| InputFailure.

(** Run the directives over [s]; [assigned] are the values stored so far,
    in the order of the pointer arguments. *)
Fixpoint scan (ds : list directive) (s : string) (assigned : list N)
  : list N * stop :=
  match ds with
  | [] => (assigned, Complete)
  | Conv_u :: ds' =>
      match scan_u s with
      | Converted n rest => scan ds' rest (assigned ++ [n])
      | NoMatch => (assigned, MatchingFailure)
      | NoInput => (assigned, InputFailure)
      end
  | White :: ds' => scan ds' (skip_space s) assigned
  | Ordinary c :: ds' =>
      match s with
      | "" => (assigned, InputFailure)
      | String c' s' =>
          if (c' =? c)%char then scan ds' s' assigned
          else (assigned, MatchingFailure)
      end
  end.

Definition EOF : Z := (-1)%Z.

(** [sscanf(s, fmt, ...)]: the return value and the values stored.  The
    return value is [EOF] when the input ends before the first
    conversion, and the number of values stored otherwise. *)
Definition sscanf (s fmt : string) : Z * list N :=
  let '(vals, st) := scan (directives fmt) s [] in
  (match st, vals with
   | InputFailure, [] => EOF
   | _, _ => Z.of_nat (List.length vals)
   end, vals).

(** *** Calendar time *)

(** The fields of [struct tm] that [%F] reads: years since 1900, months
    since January, day of the month. *)
Record tm : Type := { tm_year : N; tm_mon : N; tm_mday : N }.

(** [strftime(buf, max, fmt, tm)] for the format ["%F"], which stands for
    ["%Y-%m-%d"]: the year in decimal, the month and the day as two
    digits.  Nothing is stored when the result and its NUL do not fit. *)
Definition strftime (max : nat) (fmt : string) (t : tm) : string :=
  if streq fmt "%F" then
    let s := sprintf "%u-%.2u-%.2u"
               [U (tm_year t + 1900)%N; U (tm_mon t + 1)%N; U (tm_mday t)] in
    if (String.length s <? max)%nat then s else ""
  else "".

(** Reading element [i] of a C array: defined within the bounds only. *)
Definition array_get {A : Type} (a : list A) (i : Z) : option A :=
  if (0 <=? i)%Z then nth_error a (Z.to_nat i) else None.

End Libc.

Import Libc.

(* ================================================================== *)
(** ** The world the library runs in *)

(** What persists between the calls of library.c, or is read from outside:
    the static result buffers of the two date normalisers, the standard
    error stream, the local calendar time, and the number of buffer
    headers that are allocated and not yet freed. *)
Record world : Type := {
  date2str_buf : string;
  rcsdate2str_buf : string;
  stderr : list string;
  clock : tm;
  hbufs : nat
}.

Definition set_date2str_buf (s : string) (w : world) : world :=
  {| date2str_buf := s; rcsdate2str_buf := rcsdate2str_buf w;
     stderr := stderr w; clock := clock w; hbufs := hbufs w |}.

Definition set_rcsdate2str_buf (s : string) (w : world) : world :=
  {| date2str_buf := date2str_buf w; rcsdate2str_buf := s;
     stderr := stderr w; clock := clock w; hbufs := hbufs w |}.

Definition set_stderr (l : list string) (w : world) : world :=
  {| date2str_buf := date2str_buf w; rcsdate2str_buf := rcsdate2str_buf w;
     stderr := l; clock := clock w; hbufs := hbufs w |}.

Definition set_hbufs (n : nat) (w : world) : world :=
  {| date2str_buf := date2str_buf w; rcsdate2str_buf := rcsdate2str_buf w;
     stderr := stderr w; clock := clock w; hbufs := n |}.

(** A computation reads and changes the world and gives a result, or is
    undefined ([None]). *)
Definition M (A : Type) : Type := world -> option (A * world).

Definition ret {A : Type} (a : A) : M A := fun w => Some (a, w).

Definition bind {A B : Type} (c : M A) (k : A -> M B) : M B :=
  fun w =>
    match c w with
    | Some (a, w') => k a w'
    | None => None
    end.

Definition undefined {A : Type} : M A := fun _ => None.

Declare Scope monad_scope.
Delimit Scope monad_scope with monad.
Notation "x <- c ;; k" := (bind c (fun x => k))
  (at level 61, c at next level, right associativity) : monad_scope.
Notation "' p <- c ;; k" := (bind c (fun x => match x with p => k end))
  (at level 61, p pattern, c at next level, right associativity) : monad_scope.
Notation "c ;; k" := (bind c (fun _ => k))
  (at level 61, right associativity) : monad_scope.
Open Scope monad_scope.

(** [warnx(msg)]: one line on the standard error stream. *)
Definition warnx (msg : string) : M unit :=
  fun w => Some (tt, set_stderr (stderr w ++ [msg]) w).

(** [localtime(&t)] of [t = time(NULL)]. *)
Definition localtime_now : M tm := fun w => Some (clock w, w).

(** [p->field] for a pointer that may be null. *)
Definition deref {A : Type} (p : option A) : M A :=
  match p with
  | Some a => ret a
  | None => undefined
  end.

(* ================================================================== *)
(** ** lowdown.h and the buffer (buffer.c) *)

(** Modelled from the spec: [enum lowdown_type] of lowdown.h, which is not
    part of the sources at hand; the output type is one of HTML, NROFF and
    MAN. *)
Inductive lowdown_type : Type :=
| LOWDOWN_HTML
| LOWDOWN_MAN
| LOWDOWN_NROFF.

Definition lowdown_type_eqb (a b : lowdown_type) : bool :=
  match a, b with
  | LOWDOWN_HTML, LOWDOWN_HTML => true
  | LOWDOWN_MAN, LOWDOWN_MAN => true
  | LOWDOWN_NROFF, LOWDOWN_NROFF => true
  | _, _ => false
  end.

(** Modelled from the spec: [struct lowdown_opts] of lowdown.h, with the
    three fields library.c reads: the output type, the feature flags and
    the output flags (two [unsigned int] bit sets). *)
Record lowdown_opts : Type := {
  type : lowdown_type;
  feat : N;
  oflags : N
}.

(** Modelled from the spec: [struct lowdown_meta] of lowdown.h, a key and
    a value. *)
Record lowdown_meta : Type := {
  key : string;
  value : string
}.

(** Modelled from the spec: [enum lowdown_err] of lowdown.h enumerates two
    error kinds (a space before a link, a bad character in a metadata key),
    so that [LOWDOWN_ERR__MAX], the enumerator after them, is 2.  An
    [enum] object holds an [int]. *)
Definition LOWDOWN_ERR_SPACE_BEFORE_LINK : Z := 0.
Definition LOWDOWN_ERR_METADATA_BAD_CHAR : Z := 1.
Definition LOWDOWN_ERR__MAX : Z := 2.

(** Modelled from the spec: the growable byte buffer of buffer.c, by its
    contents.  A new buffer is empty; [HBUF_PUTSL], [hbuf_putc] and
    [hbuf_printf] append; freeing gives the header back. *)
Definition hbuf : Type := string.

(** Modelled from the spec: [hbuf_new] of buffer.c allocates the header of
    an empty buffer. *)
Definition hbuf_new (unit : nat) : M hbuf :=
  fun w => Some ("", set_hbufs (S (hbufs w)) w).

(** Modelled from the spec: [hbuf_free] of buffer.c releases the header
    and the contents still held. *)
Definition hbuf_free (b : hbuf) : M unit :=
  fun w => Some (tt, set_hbufs (pred (hbufs w)) w).

(** Modelled from the spec: the macro [HBUF_PUTSL] of the buffer appends
    a string literal. *)
Definition HBUF_PUTSL (op : hbuf) (s : string) : hbuf := op ++ s.

(** Modelled from the spec: [hbuf_putc] of buffer.c appends one
    character. *)
Definition hbuf_putc (op : hbuf) (c : ascii) : hbuf := op ++ String c "".

(** Modelled from the spec: [hbuf_printf] of buffer.c appends formatted
    text, growing the buffer as needed. *)
Definition hbuf_printf (op : hbuf) (fmt : string) (args : list arg) : hbuf :=
  op ++ sprintf fmt args.

(** Modelled from the spec: an input stream, by the bytes it delivers and
    whether it ends in a read error or at the end of the input. *)
Record FILE : Type := {
  delivers : string;
  read_error : bool
}.

(** Modelled from the spec: [hbuf_putf] of buffer.c drains the stream into
    the buffer, whatever its length, and returns non-zero exactly on a read
    error. *)
Definition hbuf_putf (ib : hbuf) (fin : FILE) : hbuf * bool :=
  (ib ++ delivers fin, read_error fin).

(** Some characters that a string literal cannot hold as they are. *)
Definition NL : string := String "010" "".
Definition DQ : string := String "034" "".

(* ================================================================== *)
(** ** library.c *)

Definition DEF_IUNIT : nat := 1024.
Definition DEF_OUNIT : nat := 64.
Definition DEF_MAX_NESTING : nat := 16.

Definition errs : list string :=
  [ "space before link (CommonMark violation)";
    "bad character in metadata key (MultiMarkdown violation)" ].

Definition lowdown_errstr (err : Z) : option string :=
  array_get errs err.

(** *** The pipeline *)

Section Pipeline.

(** The renderers (html.c, nroff.c), the document parser (document.c)
    and the typographic pass (smartypants.c) stand outside library.c. *)
Variables hrend hdoc : Type.
Variable hrend_html_new : N -> N -> hrend.
Variable hrend_nroff_new : N -> bool -> hrend.
Variable hdoc_new : hrend -> option lowdown_opts -> N -> nat -> bool -> hdoc.
Variable hdoc_render : hdoc -> hbuf -> string -> hbuf * list lowdown_meta.
Variables hsmrt_html hsmrt_nroff : hbuf -> string -> hbuf.

(** The output flag that asks for the typographic pass (lowdown.h). *)
Variable LOWDOWN_SMARTY : N.

Definition is_html (opts : option lowdown_opts) : bool :=
  match opts with
  | None => true
  | Some o => lowdown_type_eqb LOWDOWN_HTML (type o)
  end.

Definition smarty (opts : option lowdown_opts) : bool :=
  match opts with
  | None => false
  | Some o => negb (N.land LOWDOWN_SMARTY (oflags o) =? 0)%N
  end.

Definition new_renderer (opts : option lowdown_opts) : hrend :=
  match opts with
  | None => hrend_html_new 0 0
  | Some o =>
      if lowdown_type_eqb LOWDOWN_HTML (type o)
      then hrend_html_new (oflags o) 0
      else hrend_nroff_new (oflags o) (lowdown_type_eqb LOWDOWN_MAN (type o))
  end.

Definition new_document (opts : option lowdown_opts) : hdoc :=
  hdoc_new (new_renderer opts) opts
    (match opts with None => 0%N | Some o => feat o end)
    DEF_MAX_NESTING
    (match opts with
     | None => false
     | Some o => negb (lowdown_type_eqb LOWDOWN_HTML (type o))
     end).

Definition lowdown_buf (opts : option lowdown_opts) (data : string)
  : M (string * list lowdown_meta) :=
  ob <- hbuf_new DEF_OUNIT ;;
  spb <- hbuf_new DEF_OUNIT ;;
  let document := new_document opts in
  let '(ob, m) := hdoc_render document ob data in
  if smarty opts then
    let spb :=
      if is_html opts then hsmrt_html spb ob else hsmrt_nroff spb ob in
    hbuf_free ob ;;
    let res := spb in
    hbuf_free spb ;;
    ret (res, m)
  else
    let res := ob in
    hbuf_free ob ;;
    ret (res, m).

(** The result is the success flag; the output and the metadata are
    stored for the caller on success only. *)
Definition lowdown_file (opts : option lowdown_opts) (fin : FILE)
  : M (Z * option (string * list lowdown_meta)) :=
  ib <- hbuf_new DEF_IUNIT ;;
  let '(ib, err) := hbuf_putf ib fin in
  if err then
    hbuf_free ib ;;
    ret (0%Z, None)
  else
    r <- lowdown_buf opts ib ;;
    hbuf_free ib ;;
    ret (1%Z, Some r).

(** The body the renderer produced from [data], and the metadata. *)
Definition body (opts : option lowdown_opts) (data : string) : string :=
  fst (hdoc_render (new_document opts) "" data).

Definition metadata (opts : option lowdown_opts) (data : string)
  : list lowdown_meta :=
  snd (hdoc_render (new_document opts) "" data).

(** The typographic pass that matches the output type, into a fresh
    buffer. *)
Definition substituted (opts : option lowdown_opts) (b : string) : string :=
  if is_html opts then hsmrt_html "" b else hsmrt_nroff "" b.

End Pipeline.

(** *** The date normalisers *)

(** What a [char *] result of the normalisers, or the [date] variable of
    [lowdown_standalone_open], points to. *)
Inductive charptr : Type :=
| Ptr_date2str_buf
| Ptr_rcsdate2str_buf
| Ptr_local_buf.

(** The string at [p]; [buf] is the local buffer of the caller. *)
Definition load (w : world) (buf : string) (p : charptr) : string :=
  match p with
  | Ptr_date2str_buf => date2str_buf w
  | Ptr_rcsdate2str_buf => rcsdate2str_buf w
  | Ptr_local_buf => buf
  end.

Definition stored (a : list N) (i : nat) : N := nth i a 0%N.

Definition date2str (v : option string) : M (option charptr) :=
  match v with
  | None => ret None
  | Some v =>
      let r := sscanf v "%u/%u/%u" in
      let r := if (fst r =? 3)%Z then r else sscanf v "%u-%u-%u" in
      if (fst r =? 3)%Z then
        let a := snd r in
        fun w =>
          Some (Some Ptr_date2str_buf,
                set_date2str_buf
                  (snprintf 32 "%u-%.2u-%.2u"
                     [U (stored a 0); U (stored a 1); U (stored a 2)]) w)
      else
        warnx "malformed ISO-8601 date" ;;
        ret None
  end.

(** [v += n] within a string of at least [n] characters. *)
Fixpoint advance (n : nat) (v : string) : string :=
  match n, v with
  | O, _ => v
  | S n', String _ v' => advance n' v'
  | S _, "" => ""
  end.

Definition rcsdate2str (v : option string) : M (option charptr) :=
  match v with
  | None => ret None
  | Some v =>
      if (strlen v <? 7)%nat then
        warnx "malformed RCS date" ;;
        ret None
      else
        let v := advance 7 v in
        let r := sscanf v "%u/%u/%u %u:%u:%u" in
        if (fst r =? 6)%Z then
          let a := snd r in
          fun w =>
            Some (Some Ptr_rcsdate2str_buf,
                  set_rcsdate2str_buf
                    (snprintf 32 "%u-%.2u-%.2u"
                       [U (stored a 0); U (stored a 1); U (stored a 2)]) w)
        else
          warnx "malformed RCS date" ;;
          ret None
  end.

(** *** The roff serialiser *)

(** [while (isspace((int)*v)) v++;] *)
Fixpoint skip_isspace (v : string) : string :=
  match v with
  | "" => ""
  | String c v' => if isspace c then skip_isspace v' else v
  end.

(** [c == *v] *)
Definition at_char (c : ascii) (v : string) : bool :=
  match v with
  | "" => false
  | String c' _ => (c' =? c)%char
  end.

(** The [for] loop of [serialise_roff]. *)
Fixpoint serialise_roff_loop (op : hbuf) (v : string) (block : bool) : hbuf :=
  match v with
  | "" => op
  | String c v' =>
      let op :=
        if (c =? "\")%char then HBUF_PUTSL op "\e"
        else if negb block && (c =? "034")%char then HBUF_PUTSL op "\(dq"
        else if isspace c then hbuf_putc op " "
        else hbuf_putc op c in
      serialise_roff_loop op v' block
  end.

Definition serialise_roff (op : hbuf) (v : string) (block : bool) : hbuf :=
  let v := skip_isspace v in
  let op := if block && at_char "." v then HBUF_PUTSL op "\&" else op in
  let op := serialise_roff_loop op v block in
  if block then HBUF_PUTSL op NL else op.

(** *** The standalone envelope *)

(** The [for] loop over the metadata of [lowdown_standalone_open]. *)
Fixpoint meta_loop (m : list lowdown_meta)
    (title : string) (author : option string) (date : option charptr)
  : M (string * option string * option charptr) :=
  match m with
  | [] => ret (title, author, date)
  | e :: m' =>
      if streq (key e) "title" then
        meta_loop m' (value e) author date
      else if streq (key e) "author" then
        meta_loop m' title (Some (value e)) date
      else if streq (key e) "rcsdate" then
        date <- rcsdate2str (Some (value e)) ;;
        meta_loop m' title author date
      else if streq (key e) "date" then
        date <- date2str (Some (value e)) ;;
        meta_loop m' title author date
      else
        meta_loop m' title author date
  end.

(** The [for] loop over the title in the HTML case. *)
Fixpoint html_title_loop (op : hbuf) (title : string) : hbuf :=
  match title with
  | "" => op
  | String c title' =>
      let op :=
        if (c =? "<")%char then HBUF_PUTSL op "&lt;"
        else if (c =? ">")%char then HBUF_PUTSL op "&gt;"
        else if isspace c then hbuf_putc op " "
        else hbuf_putc op c in
      html_title_loop op title'
  end.

(** The title between [<title>] and [</title>]: lines 244 to 254. *)
Definition html_title (op : hbuf) (title : string) : hbuf :=
  html_title_loop op (skip_isspace title).

Definition html_head : string :=
  "<!DOCTYPE html>" ++ NL ++
  "<html>" ++ NL ++
  "<head>" ++ NL ++
  "<meta charset=" ++ DQ ++ "utf-8" ++ DQ ++ ">" ++ NL ++
  "<meta name=" ++ DQ ++ "viewport" ++ DQ ++ " content=" ++ DQ ++
  "width=device-width,initial-scale=1" ++ DQ ++ ">" ++ NL ++
  "<title>".

Definition html_neck : string :=
  "</title>" ++ NL ++
  "</head>" ++ NL ++
  "<body>" ++ NL.

(** The metadata scan and the date default: lines 203 to 232.  The result
    is the title, the author, the [date] pointer and the local [buf]. *)
Definition resolve_meta (m : list lowdown_meta)
  : M (string * option string * charptr * string) :=
  ' (title, author, date) <- meta_loop m "Untitled article" None None ;;
  match date with
  | None =>
      t <- localtime_now ;;
      ret (title, author, Ptr_local_buf, strftime 32 "%F" t)
  | Some p => ret (title, author, p, "")
  end.

Definition lowdown_standalone_open
    (opts : option lowdown_opts) (m : list lowdown_meta) : M string :=
  op <- hbuf_new DEF_OUNIT ;;
  ' (title, author, date, buf) <- resolve_meta m ;;
  o <- deref opts ;;
  op <-
    match type o with
    | LOWDOWN_HTML =>
        let op := HBUF_PUTSL op html_head in
        let op := html_title op title in
        ret (HBUF_PUTSL op html_neck)
    | LOWDOWN_NROFF =>
        fun w =>
          let op :=
            hbuf_printf op (".DA %s" ++ NL ++ ".TL" ++ NL)
              [Str (load w buf date)] in
          let op := serialise_roff op title true in
          let op :=
            match author with
            | Some author =>
                serialise_roff (HBUF_PUTSL op (".AU" ++ NL)) author true
            | None => op
            end in
          Some (op, w)
    | LOWDOWN_MAN =>
        fun w =>
          let op := HBUF_PUTSL op (".TH " ++ DQ) in
          let op := serialise_roff op title false in
          Some (hbuf_printf op (DQ ++ " 7 %s" ++ NL) [Str (load w buf date)], w)
    end ;;
  let res := op in
  hbuf_free op ;;
  ret res.

Definition lowdown_standalone_close (opts : option lowdown_opts) : M string :=
  op <- hbuf_new DEF_OUNIT ;;
  o <- deref opts ;;
  let op :=
    match type o with
    | LOWDOWN_HTML => HBUF_PUTSL op ("</body>" ++ NL ++ "</html>" ++ NL)
    | _ => op
    end in
  let res := op in
  hbuf_free op ;;
  ret res.

(* ================================================================== *)
(** ** What the specification says, in its own words *)

Module Spec.

(** Skip leading characters that satisfy [p]. *)
Fixpoint drop_while (p : ascii -> bool) (s : string) : string :=
  match s with
  | "" => ""
  | String c s' => if p c then drop_while p s' else s
  end.

(** Replace every character by a string. *)
Fixpoint subst_chars (f : ascii -> string) (s : string) : string :=
  match s with
  | "" => ""
  | String c s' => f c ++ subst_chars f s'
  end.

Definition starts_with (c : ascii) (s : string) : bool :=
  match s with
  | String c' _ => Ascii.eqb c' c
  | "" => false
  end.

(** Roff escaping, character by character. *)
Definition roff_char (isBlock : bool) (c : ascii) : string :=
  if Ascii.eqb c "\" then "\e"
  else if negb isBlock && Ascii.eqb c "034" then "\(dq"
  else if isspace c then " "
  else String c "".

Definition escapeRoff (v : string) (isBlock : bool) : string :=
  let t := drop_while isspace v in
  (if isBlock && starts_with "." t then "\&" else "")
    ++ subst_chars (roff_char isBlock) t
    ++ (if isBlock then NL else "").

(** Inline HTML-title escaping with every white-space character replaced
    by one space. *)
Definition title_char (c : ascii) : string :=
  if Ascii.eqb c "<" then "&lt;"
  else if Ascii.eqb c ">" then "&gt;"
  else if isspace c then " "
  else String c "".

Definition escapeTitle (title : string) : string :=
  subst_chars title_char (drop_while isspace title).

(** Inline HTML-title escaping with every white-space run replaced by a
    single space; [in_run] tells that the previous character was white
    space. *)
Fixpoint title_runs (in_run : bool) (s : string) : string :=
  match s with
  | "" => ""
  | String c s' =>
      if isspace c then (if in_run then "" else " ") ++ title_runs true s'
      else title_char c ++ title_runs false s'
  end.

Definition escapeTitle_runs (title : string) : string :=
  title_runs false (drop_while isspace title).

(** The Canonical Date: the year as it is, month and day on two digits
    at least. *)
Definition canonical_date (y m d : N) : string :=
  utoa y ++ "-" ++ zero_pad 2 (utoa m) ++ "-" ++ zero_pad 2 (utoa d).

(** The last entry of the metadata that satisfies [p]. *)
Fixpoint last_entry (p : lowdown_meta -> bool) (m : list lowdown_meta)
  : option lowdown_meta :=
  match m with
  | [] => None
  | e :: m' =>
      match last_entry p m' with
      | Some e' => Some e'
      | None => if p e then Some e else None
      end
  end.

Definition has_key (k : string) (e : lowdown_meta) : bool :=
  String.eqb (key e) k.

Definition is_date_entry (e : lowdown_meta) : bool :=
  has_key "rcsdate" e || has_key "date" e.

End Spec.

(* ================================================================== *)
(** ** The normalisers as functions of the string *)

(** The string a normaliser returns when it is run in [w]: what its result
    points to on return, and no value for a null result. *)
Definition result_string (c : M (option charptr)) (w : world) : option string :=
  match c w with
  | Some (Some p, w') => Some (load w' "" p)
  | _ => None
  end.

(** The world at the start of the process. *)
Definition world0 : world :=
  {| date2str_buf := ""; rcsdate2str_buf := ""; stderr := [];
     clock := {| tm_year := 70; tm_mon := 0; tm_mday := 1 |}; hbufs := 0 |}.

Definition normalizeDate (v : string) : option string :=
  result_string (date2str (Some v)) world0.

Definition normalizeRcsDate (v : string) : option string :=
  result_string (rcsdate2str (Some v)) world0.

(** A numeral is a non-empty string of decimal digits. *)
Fixpoint all_digits (s : string) : bool :=
  match s with
  | "" => true
  | String c s' => isdigit c && all_digits s'
  end.

Definition numeral (s : string) : bool :=
  match s with
  | "" => false
  | String _ _ => all_digits s
  end.

(** The value [%u] stores for a numeral. *)
Definition uint_of_numeral (s : string) : N :=
  (fst (scan_digits 0 s) mod UINT_MODULUS)%N.

(** The text after a numeral does not go on with a digit. *)
Definition no_digit_ahead (s : string) : bool :=
  match s with
  | "" => true
  | String c _ => negb (isdigit c)
  end.

(* ================================================================== *)
(** ** The metadata the envelope resolves *)

(** The date an entry with key [rcsdate] or [date] stands for. *)
Definition date_of_entry (e : lowdown_meta) : option string :=
  if Spec.has_key "rcsdate" e then normalizeRcsDate (value e)
  else normalizeDate (value e).

(** The local calendar date as YYYY-MM-DD. *)
Definition today (t : tm) : string :=
  Spec.canonical_date (tm_year t + 1900) (tm_mon t + 1) (tm_mday t).

(** Last occurrence wins; a date that does not normalise, or no date at
    all, gives the date of the day. *)
Definition resolved_date (m : list lowdown_meta) (t : tm) : string :=
  match Spec.last_entry Spec.is_date_entry m with
  | Some e =>
      match date_of_entry e with
      | Some s => s
      | None => today t
      end
  | None => today t
  end.

Definition resolved_title (m : list lowdown_meta) : string :=
  match Spec.last_entry (Spec.has_key "title") m with
  | Some e => value e
  | None => "Untitled article"
  end.

Definition resolved_author (m : list lowdown_meta) : option string :=
  match Spec.last_entry (Spec.has_key "author") m with
  | Some e => Some (value e)
  | None => None
  end.

(** A calendar date with a year of four digits, as [localtime] gives. *)
Definition calendar (t : tm) : Prop :=
  (1000 <= tm_year t + 1900 <= 9999)%N
  /\ (tm_mon t <= 11)%N
  /\ (1 <= tm_mday t <= 31)%N.

Definition entry (k v : string) : lowdown_meta := {| key := k; value := v |}.

(** The leading digits of a string, and what follows them. *)
Fixpoint leading_digits (s : string) : string :=
  match s with
  | "" => ""
  | String c s' => if isdigit c then String c (leading_digits s') else ""
  end.

Fixpoint after_digits (s : string) : string :=
  match s with
  | "" => ""
  | String c s' => if isdigit c then after_digits s' else s
  end.

(** The least number of [k + 1] decimal digits. *)
Definition pow10 (k : nat) : N := (10 ^ N.of_nat k)%N.

(** No two white-space characters follow each other in [s]; [prev] tells
    that the character before [s] was white space. *)
Fixpoint no_space_run (prev : bool) (s : string) : bool :=
  match s with
  | "" => true
  | String c s' =>
      if isspace c then negb prev && no_space_run true s'
      else no_space_run false s'
  end.

(** What the date slot holds after the loop, against the last date entry
    [last] of the part scanned: the normalised date of that entry, or the
    slot and the two static buffers as they were when there is none. *)
Definition date_slot (last : option lowdown_meta)
    (date : option charptr) (w : world)
    (date' : option charptr) (w' : world) : Prop :=
  match last with
  | Some e =>
      match date_of_entry e with
      | Some s => exists p, date' = Some p /\ load w' "" p = s
      | None => date' = None
      end
  | None =>
      date' = date
      /\ date2str_buf w' = date2str_buf w
      /\ rcsdate2str_buf w' = rcsdate2str_buf w
  end.

(* ================================================================== *)
(** ** Vocabulary for further properties of the code *)

(** Every character of [s] satisfies [p]. *)
Fixpoint string_forall (p : ascii -> bool) (s : string) : bool :=
  match s with
  | "" => true
  | String c s' => p c && string_forall p s'
  end.

(** How often [c] occurs in [s]. *)
Fixpoint count_char (c : ascii) (s : string) : nat :=
  match s with
  | "" => 0
  | String c' s' => (if (c' =? c)%char then 1 else 0) + count_char c s'
  end.

(** No white space but the space itself. *)
Definition space_only (c : ascii) : bool :=
  negb (isspace c) || (c =? " ")%char.

(** Neither angle bracket, and no white space but the space. *)
Definition markup_free (c : ascii) : bool :=
  negb (c =? "<")%char && negb (c =? ">")%char && space_only c.

(** No double quote, and no white space but the space. *)
Definition quote_free (c : ascii) : bool :=
  negb (c =? "034")%char && space_only c.

(** A decimal digit or a hyphen. *)
Definition date_char (c : ascii) : bool :=
  isdigit c || (c =? "-")%char.

(** A string whose only white space is the space, and which does not
    start with one. *)
Definition plain (v : string) : bool :=
  string_forall space_only v && negb (at_char " " v).

(** The metadata keys [lowdown_standalone_open] looks at. *)
Definition known_key (e : lowdown_meta) : bool :=
  Spec.has_key "title" e || Spec.has_key "author" e
  || Spec.has_key "rcsdate" e || Spec.has_key "date" e.

(** The warning an entry leaves on the standard error stream: one for a
    date that does not normalise. *)
Definition warning_of (e : lowdown_meta) : list string :=
  if Spec.has_key "rcsdate" e then
    match normalizeRcsDate (value e) with
    | Some _ => []
    | None => ["malformed RCS date"]
    end
  else if Spec.has_key "date" e then
    match normalizeDate (value e) with
    | Some _ => []
    | None => ["malformed ISO-8601 date"]
    end
  else [].

Definition warnings (m : list lowdown_meta) : list string :=
  flat_map warning_of m.

(** Reading roff escapes back: [\e] is a backslash, [\(dq] a double quote,
    [\&] nothing. *)
Fixpoint unroff (s : string) : string :=
  match s with
  | "" => ""
  | String "\" (String "e" r) => String "\" (unroff r)
  | String "\" (String "(" (String "d" (String "q" r))) =>
      String "034" (unroff r)
  | String "\" (String "&" r) => unroff r
  | String c r => String c (unroff r)
  end.

(** The number of lines of the preamble of each output type. *)
Definition preamble_lines (t : lowdown_type) (author : option string) : nat :=
  match t with
  | LOWDOWN_HTML => 8
  | LOWDOWN_MAN => 1
  | LOWDOWN_NROFF =>
      match author with
      | Some _ => 5
      | None => 3
      end
  end.

(* ================================================================== *)
(** ** Strings *)

Lemma append_nil_r (s : string) : s ++ "" = s.
Proof. induction s as [|c s IH]; simpl; [reflexivity | now rewrite IH]. Qed.

Lemma append_assoc (a b c : string) : (a ++ b) ++ c = a ++ (b ++ c).
Proof. induction a as [|x a IH]; simpl; [reflexivity | now rewrite IH]. Qed.

Lemma append_length (a b : string) :
  String.length (a ++ b) = String.length a + String.length b.
Proof. induction a as [|x a IH]; simpl; [reflexivity | now rewrite IH]. Qed.

Lemma skip_isspace_drop_while (v : string) :
  skip_isspace v = Spec.drop_while isspace v.
Proof.
  induction v as [|c v IH]; simpl; [reflexivity|].
  destruct (isspace c); [exact IH | reflexivity].
Qed.

(* ================================================================== *)
(** ** The roff serialiser *)

Lemma serialise_roff_loop_spec (v : string) (block : bool) :
  forall op : hbuf,
    serialise_roff_loop op v block
    = op ++ Spec.subst_chars (Spec.roff_char block) v.
Proof.
  induction v as [|c v IH]; intros op; simpl.
  - now rewrite append_nil_r.
  - rewrite IH. unfold Spec.roff_char, HBUF_PUTSL, hbuf_putc.
    destruct (c =? "\")%char; [now rewrite append_assoc|].
    destruct (negb block && (c =? "034")%char); [now rewrite append_assoc|].
    destruct (isspace c); now rewrite append_assoc.
Qed.

Lemma serialise_roff_run (op : hbuf) (v : string) (block : bool) :
  serialise_roff op v block = op ++ Spec.escapeRoff v block.
Proof.
  unfold serialise_roff, Spec.escapeRoff.
  rewrite serialise_roff_loop_spec, skip_isspace_drop_while.
  unfold HBUF_PUTSL, at_char, Spec.starts_with.
  set (t := Spec.drop_while isspace v).
  destruct block; simpl.
  - destruct t as [|c t']; simpl.
    + now rewrite !append_assoc.
    + destruct (c =? ".")%char; now rewrite !append_assoc.
  - now rewrite !append_nil_r.
Qed.

(** C7.  For every buffer [op], string [v] and flag [block],
    [serialise_roff] appends to [op] exactly what the specification's
    [escapeRoff] describes: the leading white space of [v] is skipped; the
    zero-width escape [\&] comes first when [block] is set and the text
    starts with a dot; then every backslash becomes [\e], every double
    quote becomes [\(dq] when [block] is not set, every white-space
    character becomes one space and every other character is copied; a
    newline ends the output when [block] is set.  On [.foo\bar] in block
    mode the output is [\&.foo\ebar] and a newline. *)
Theorem serialise_roff_escapeRoff :
  (forall (op : hbuf) (v : string) (block : bool),
      serialise_roff op v block = op ++ Spec.escapeRoff v block)
  /\ serialise_roff "" ".foo\bar" true = "\&.foo\ebar" ++ NL
  /\ Spec.roff_char true "034" = DQ
  /\ Spec.roff_char false "034" = "\(dq".
Proof.
  split; [exact serialise_roff_run | repeat split; reflexivity].
Qed.

(* ================================================================== *)
(** ** The HTML title *)

Lemma html_title_loop_spec (title : string) :
  forall op : hbuf,
    html_title_loop op title = op ++ Spec.subst_chars Spec.title_char title.
Proof.
  induction title as [|c t IH]; intros op; simpl.
  - now rewrite append_nil_r.
  - rewrite IH. unfold Spec.title_char, HBUF_PUTSL, hbuf_putc.
    destruct (c =? "<")%char; [now rewrite append_assoc|].
    destruct (c =? ">")%char; [now rewrite append_assoc|].
    destruct (isspace c); now rewrite append_assoc.
Qed.

(** C3, as the specification states it, fails: a run of two spaces inside
    the title stays two spaces, where replacing the run by a single space
    would leave one. *)
Lemma html_title_keeps_runs :
  html_title "" "a  b" = "a  b"
  /\ Spec.escapeTitle_runs "a  b" = "a b"
  /\ html_title "" "a  b" <> Spec.escapeTitle_runs "a  b".
Proof. repeat split; try reflexivity. discriminate. Qed.

Lemma html_title_run (op : hbuf) (title : string) :
  html_title op title = op ++ Spec.escapeTitle title.
Proof.
  unfold html_title, Spec.escapeTitle.
  now rewrite html_title_loop_spec, skip_isspace_drop_while.
Qed.

(** C3, amended.  For every title, the title escaping of the HTML preamble
    skips the leading white space, then replaces [<] by [&lt;], [>] by
    [&gt;] and every single white-space character by one space (a run of
    [n] white-space characters becomes [n] spaces), and copies every other
    character, the ampersand and the double quote among them. *)
Theorem html_title_escapeTitle :
  (forall (op : hbuf) (title : string),
      html_title op title = op ++ Spec.escapeTitle title)
  /\ html_title "" "  <Hi> " = "&lt;Hi&gt; "
  /\ html_title "" ("He said " ++ DQ ++ "hi" ++ DQ ++ " & left")
     = "He said " ++ DQ ++ "hi" ++ DQ ++ " & left"
  /\ Spec.title_char "&" = "&"
  /\ Spec.title_char "034" = DQ.
Proof.
  split; [exact html_title_run | repeat split; reflexivity].
Qed.

(** Where no two white-space characters follow each other, replacing
    characters and replacing runs give the same title. *)
Lemma title_runs_single (s : string) :
  forall prev, no_space_run prev s = true ->
    Spec.title_runs prev s = Spec.subst_chars Spec.title_char s.
Proof.
  induction s as [|c s IH]; intros prev H; simpl in *; [reflexivity|].
  destruct (isspace c) eqn:Hc.
  - apply andb_true_iff in H as [Hp Hs]. destruct prev; [discriminate|].
    rewrite (IH true Hs). unfold Spec.title_char at 2. rewrite Hc.
    destruct (c =? "<")%char eqn:E1.
    { apply Ascii.eqb_eq in E1. subst c. discriminate. }
    destruct (c =? ">")%char eqn:E2.
    { apply Ascii.eqb_eq in E2. subst c. discriminate. }
    reflexivity.
  - now rewrite (IH false H).
Qed.

(* ================================================================== *)
(** ** The error strings *)

(** C9, as the specification states it, fails: the code after the last
    enumerated one is out of range, and the lookup has no defined result
    there. *)
Lemma lowdown_errstr_unchecked :
  ~ (0 <= LOWDOWN_ERR__MAX < LOWDOWN_ERR__MAX)%Z
  /\ lowdown_errstr LOWDOWN_ERR__MAX = None
  /\ lowdown_errstr (-1) = None.
Proof. repeat split; try reflexivity. unfold LOWDOWN_ERR__MAX. lia. Qed.

(** C9, amended.  [lowdown_errstr] is an indexed lookup into the fixed
    table of two strings, without a bounds check: each of the two
    enumerated codes gives its string, and a code has a defined result
    exactly when it is one of the two. *)
Theorem lowdown_errstr_lookup :
  lowdown_errstr LOWDOWN_ERR_SPACE_BEFORE_LINK
  = Some "space before link (CommonMark violation)"
  /\ lowdown_errstr LOWDOWN_ERR_METADATA_BAD_CHAR
     = Some "bad character in metadata key (MultiMarkdown violation)"
  /\ forall err : Z,
       lowdown_errstr err <> None <-> (0 <= err < LOWDOWN_ERR__MAX)%Z.
Proof.
  split; [reflexivity|]. split; [reflexivity|].
  intros err. unfold lowdown_errstr, array_get, LOWDOWN_ERR__MAX.
  destruct (Z.leb_spec 0 err) as [Hle|Hlt].
  - rewrite nth_error_Some. simpl List.length. lia.
  - split; [congruence | lia].
Qed.

(* ================================================================== *)
(** ** The pipeline *)

Lemma set_hbufs_same (w : world) : set_hbufs (hbufs w) w = w.
Proof. now destruct w. Qed.

Lemma set_hbufs_twice (n k : nat) (w : world) :
  set_hbufs n (set_hbufs k w) = set_hbufs n w.
Proof. reflexivity. Qed.

Section PipelineFacts.

Variables hrend hdoc : Type.
Variable hrend_html_new : N -> N -> hrend.
Variable hrend_nroff_new : N -> bool -> hrend.
Variable hdoc_new : hrend -> option lowdown_opts -> N -> nat -> bool -> hdoc.
Variable hdoc_render : hdoc -> hbuf -> string -> hbuf * list lowdown_meta.
Variables hsmrt_html hsmrt_nroff : hbuf -> string -> hbuf.
Variable LOWDOWN_SMARTY : N.

Local Abbreviation the_body :=
  (body hrend hdoc hrend_html_new hrend_nroff_new hdoc_new hdoc_render).
Local Abbreviation the_metadata :=
  (metadata hrend hdoc hrend_html_new hrend_nroff_new hdoc_new hdoc_render).
Local Abbreviation the_substituted := (substituted hsmrt_html hsmrt_nroff).
Local Abbreviation buf :=
  (lowdown_buf hrend hdoc hrend_html_new hrend_nroff_new hdoc_new
     hdoc_render hsmrt_html hsmrt_nroff LOWDOWN_SMARTY).
Local Abbreviation file :=
  (lowdown_file hrend hdoc hrend_html_new hrend_nroff_new hdoc_new
     hdoc_render hsmrt_html hsmrt_nroff LOWDOWN_SMARTY).
Local Abbreviation flag := (smarty LOWDOWN_SMARTY).

(** A run of [lowdown_buf].  Both buffer headers are freed when the
    typographic pass runs; otherwise only [ob] is, and the header of [spb]
    stays allocated. *)
Lemma lowdown_buf_run (opts : option lowdown_opts) (data : string) (w : world) :
  buf opts data w
  = Some ((if flag opts then the_substituted opts (the_body opts data)
           else the_body opts data,
           the_metadata opts data),
          set_hbufs (if flag opts then hbufs w else S (hbufs w)) w).
Proof.
  unfold lowdown_buf, body, metadata, substituted, bind, hbuf_new,
    hbuf_free, ret.
  simpl.
  destruct (hdoc_render (new_document _ _ _ _ _ opts) "" data) as [ob m];
    simpl.
  destruct (flag opts); simpl; unfold set_hbufs; simpl; reflexivity.
Qed.

(** C4.  For every configuration, input and world, [lowdown_buf] returns
    one output and the metadata of the parser.  The output is the body
    the renderer produced when the typographic flag is not set, in
    particular when the configuration is absent; it is the typographic
    pass of the output type (HTML, or roff for the other two) over that
    body when the flag is set, and then not the body itself. *)
Theorem lowdown_buf_output :
  (forall (opts : option lowdown_opts) (data : string) (w : world),
      exists w',
        buf opts data w
        = Some ((if flag opts then the_substituted opts (the_body opts data)
                 else the_body opts data,
                 the_metadata opts data), w'))
  /\ flag None = false
  /\ (forall o : lowdown_opts,
        flag (Some o) = true <-> N.land LOWDOWN_SMARTY (oflags o) <> 0%N)
  /\ (forall (o : lowdown_opts) (b : string),
        the_substituted (Some o) b
        = match type o with
          | LOWDOWN_HTML => hsmrt_html "" b
          | LOWDOWN_MAN | LOWDOWN_NROFF => hsmrt_nroff "" b
          end).
Proof.
  split; [|split; [reflexivity|split]].
  - intros opts data w. eexists. apply lowdown_buf_run.
  - intros o. unfold smarty. rewrite negb_true_iff, N.eqb_neq. tauto.
  - intros o b. unfold substituted, is_html. now destruct (type o).
Qed.

(** C8.  For every configuration, stream and world: when the stream ends
    in a read error, [lowdown_file] returns 0, stores neither output nor
    metadata and leaves the world as it found it, the input buffer
    released; otherwise it returns 1 with the result of [lowdown_buf] on
    all the bytes of the stream.  It returns 0 for no other reason. *)
Theorem lowdown_file_read_error :
  (forall (opts : option lowdown_opts) (fin : FILE) (w : world),
      file opts fin w
      = if read_error fin then Some ((0%Z, None), w)
        else match buf opts (delivers fin) w with
             | Some (r, w') => Some ((1%Z, Some r), w')
             | None => None
             end)
  /\ (forall (opts : option lowdown_opts) (fin : FILE) (w : world),
        exists rc out w',
          file opts fin w = Some ((rc, out), w')
          /\ (rc = 0%Z <-> read_error fin = true)
          /\ (out = None <-> read_error fin = true)).
Proof.
  assert (H : forall opts fin w,
    file opts fin w
    = if read_error fin then Some ((0%Z, None), w)
      else match buf opts (delivers fin) w with
           | Some (r, w') => Some ((1%Z, Some r), w')
           | None => None
           end).
  { intros opts fin w. unfold lowdown_file, hbuf_putf.
    unfold bind at 1. unfold hbuf_new at 1. simpl.
    destruct (read_error fin).
    - unfold bind, hbuf_free, ret. simpl.
      now rewrite set_hbufs_twice, set_hbufs_same.
    - unfold bind at 1. rewrite !lowdown_buf_run.
      unfold bind, hbuf_free, ret. simpl.
      destruct (flag opts); reflexivity. }
  split; [exact H|].
  intros opts fin w. rewrite H, lowdown_buf_run.
  destruct (read_error fin).
  - exists 0%Z, None, w. repeat split; auto.
  - eexists 1%Z, (Some _), _. split; [reflexivity|].
    split; split; intros; discriminate.
Qed.

End PipelineFacts.

(* ================================================================== *)
(** ** The envelope without a configuration *)

(** C2 fails on the code: with a null configuration both operations of the
    envelope read the output type through the null pointer, for every
    metadata sequence and in every world, where [lowdown_buf] takes the
    null configuration for HTML with no flags. *)
Theorem lowdown_standalone_null_opts :
  (forall (m : list lowdown_meta) (w : world),
      lowdown_standalone_open None m w = None)
  /\ (forall w : world, lowdown_standalone_close None w = None).
Proof.
  split.
  - intros m w. unfold lowdown_standalone_open, bind, hbuf_new.
    destruct (resolve_meta m _) as [[[[[title author] date] b] w']|];
      reflexivity.
  - intros w. reflexivity.
Qed.

(* ================================================================== *)
(** ** Decimal numerals *)

Lemma pow10_S (k : nat) : pow10 (S k) = (10 * pow10 k)%N.
Proof. unfold pow10. now rewrite Nat2N.inj_succ, N.pow_succ_r'. Qed.

Lemma pow10_pos (k : nat) : (0 < pow10 k)%N.
Proof. unfold pow10. apply N.neq_0_lt_0, N.pow_nonzero. discriminate. Qed.

Lemma utoa_fuel_S (f : nat) (n : N) :
  utoa_fuel (S f) n
  = (if (n <? 10)%N then "" else utoa_fuel f (n / 10))
      ++ String (digit_char (n mod 10)) "".
Proof. reflexivity. Qed.

Lemma div10_lt (n p : N) : (n < 10 * p)%N -> (n / 10 < p)%N.
Proof. intros H. now apply N.Div0.div_lt_upper_bound. Qed.

Lemma utoa_fuel_irrel (f1 : nat) :
  forall (f2 : nat) (n : N),
    (n < pow10 (S f1))%N -> (n < pow10 (S f2))%N ->
    utoa_fuel (S f1) n = utoa_fuel (S f2) n.
Proof.
  induction f1 as [|f1 IH]; intros f2 n H1 H2; rewrite !utoa_fuel_S.
  - change (pow10 1) with 10%N in H1.
    apply N.ltb_lt in H1. now rewrite H1.
  - destruct (N.ltb_spec n 10) as [Hlt|Hge]; [reflexivity|].
    destruct f2 as [|f2].
    + change (pow10 1) with 10%N in H2. lia.
    + f_equal. apply IH; apply div10_lt; now rewrite <- pow10_S.
Qed.

Lemma utoa_bound (n : N) : (n < pow10 (S (N.to_nat (N.log2 n))))%N.
Proof.
  unfold pow10. rewrite Nat2N.inj_succ, N2Nat.id.
  destruct (N.eq_dec n 0) as [->|Hn]; [reflexivity|].
  apply N.lt_le_trans with (2 ^ N.succ (N.log2 n))%N.
  - apply N.log2_spec. lia.
  - apply N.pow_le_mono_l. lia.
Qed.

Lemma utoa_unfold (n : N) :
  utoa n
  = (if (n <? 10)%N then "" else utoa (n / 10))
      ++ String (digit_char (n mod 10)) "".
Proof.
  unfold utoa at 1. rewrite utoa_fuel_S.
  destruct (N.ltb_spec n 10) as [Hlt|Hge]; [reflexivity|].
  f_equal. pose proof (utoa_bound n) as Hb.
  destruct (N.to_nat (N.log2 n)) as [|k].
  - change (pow10 1) with 10%N in Hb. lia.
  - unfold utoa. apply utoa_fuel_irrel.
    + apply div10_lt. now rewrite <- pow10_S.
    + apply utoa_bound.
Qed.

(** Induction along the decimal digits of a number. *)
Lemma decimal_ind (P : N -> Prop) :
  (forall n, (n < 10)%N -> P n) ->
  (forall n, (10 <= n)%N -> P (n / 10)%N -> P n) ->
  forall n, P n.
Proof.
  intros Hlow Hstep.
  assert (H : forall k n, (n < pow10 (S k))%N -> P n).
  { induction k as [|k IH]; intros n Hn.
    - apply Hlow. exact Hn.
    - destruct (N.ltb_spec n 10) as [Hlt|Hge]; [now apply Hlow|].
      apply Hstep; [exact Hge|]. apply IH, div10_lt. now rewrite <- pow10_S. }
  intros n. exact (H _ n (utoa_bound n)).
Qed.

Lemma utoa_digit (n : N) : (n < 10)%N -> utoa n = String (digit_char n) "".
Proof.
  intros H. rewrite utoa_unfold.
  rewrite (proj2 (N.ltb_lt n 10) H), N.mod_small by exact H. reflexivity.
Qed.

Lemma utoa_length_pos (n : N) : 1 <= String.length (utoa n).
Proof.
  rewrite utoa_unfold, append_length. simpl. lia.
Qed.

Lemma utoa_length_le (k : nat) :
  forall n, (n < pow10 (S k))%N -> String.length (utoa n) <= S k.
Proof.
  induction k as [|k IH]; intros n Hn.
  - rewrite utoa_digit by exact Hn. simpl. lia.
  - rewrite utoa_unfold, append_length. simpl.
    destruct (N.ltb_spec n 10) as [Hlt|Hge]; simpl; [lia|].
    assert (String.length (utoa (n / 10)) <= S k).
    { apply IH, div10_lt. now rewrite <- pow10_S. }
    lia.
Qed.

Lemma utoa_length_gt (k : nat) :
  forall n, (pow10 k <= n)%N -> k < String.length (utoa n).
Proof.
  induction k as [|k IH]; intros n Hn.
  - pose proof (utoa_length_pos n). lia.
  - rewrite utoa_unfold, append_length. simpl.
    rewrite pow10_S in Hn. pose proof (pow10_pos k) as Hp.
    destruct (N.ltb_spec n 10) as [Hlt|Hge]; [lia|].
    assert (k < String.length (utoa (n / 10))).
    { apply IH. apply N.div_le_lower_bound; [discriminate | exact Hn]. }
    lia.
Qed.

Lemma zeros_length (k : nat) : String.length (zeros k) = k.
Proof. induction k as [|k IH]; simpl; [reflexivity | now rewrite IH]. Qed.

Lemma zero_pad_length (p : nat) (s : string) :
  String.length (zero_pad p s) = Nat.max p (String.length s).
Proof. unfold zero_pad. rewrite append_length, zeros_length. lia. Qed.

Lemma zero_pad_enough (p : nat) (s : string) :
  p <= String.length s -> zero_pad p s = s.
Proof.
  intros H. unfold zero_pad.
  replace (p - String.length s) with 0 by lia. reflexivity.
Qed.

Lemma substring_all (s : string) :
  forall n, String.length s <= n -> substring 0 n s = s.
Proof.
  induction s as [|c s IH]; intros n H; destruct n as [|n]; simpl in *;
    try reflexivity; try lia.
  rewrite IH by lia. reflexivity.
Qed.

Lemma sprintf_date (y m d : N) :
  sprintf "%u-%.2u-%.2u" [U y; U m; U d] = Spec.canonical_date y m d.
Proof.
  unfold sprintf.
  change (specs "%u-%.2u-%.2u")
    with [Fmt_u 1; Lit "-"; Fmt_u 2; Lit "-"; Fmt_u 2].
  cbn [format]. unfold Spec.canonical_date.
  rewrite (zero_pad_enough 1) by apply utoa_length_pos.
  now rewrite append_nil_r.
Qed.

Lemma canonical_date_length (y m d : N) :
  String.length (Spec.canonical_date y m d)
  = String.length (utoa y) + 1
    + Nat.max 2 (String.length (utoa m)) + 1
    + Nat.max 2 (String.length (utoa d)).
Proof.
  unfold Spec.canonical_date.
  rewrite !append_length, !zero_pad_length. simpl. lia.
Qed.

(** The date fits the 32 bytes of the result buffers unless year, month
    and day all have ten digits. *)
Lemma snprintf_date_fits (y m d : N) :
  (y < 2 ^ 32)%N -> (m < 2 ^ 32)%N -> (d < 2 ^ 32)%N ->
  (y < 10 ^ 9 \/ m < 10 ^ 9 \/ d < 10 ^ 9)%N ->
  snprintf 32 "%u-%.2u-%.2u" [U y; U m; U d] = Spec.canonical_date y m d.
Proof.
  intros Hy Hm Hd Hsmall. unfold snprintf. rewrite sprintf_date.
  apply substring_all. rewrite canonical_date_length.
  assert (H10 : forall n, (n < 2 ^ 32)%N -> String.length (utoa n) <= 10).
  { intros n Hn. apply (utoa_length_le 9). unfold pow10. simpl N.of_nat. lia. }
  assert (H9 : forall n, (n < 10 ^ 9)%N -> String.length (utoa n) <= 9).
  { intros n Hn. apply (utoa_length_le 8). exact Hn. }
  pose proof (H10 y Hy). pose proof (H10 m Hm). pose proof (H10 d Hd).
  simpl Nat.sub.
  destruct Hsmall as [Hs|[Hs|Hs]]; apply H9 in Hs; lia.
Qed.

(* ================================================================== *)
(** ** Scanning numerals *)

Lemma isdigit_facts (c : ascii) :
  isdigit c = true ->
  isspace c = false /\ (c =? "-")%char = false /\ (c =? "+")%char = false.
Proof.
  destruct c as [[] [] [] [] [] [] [] []]; vm_compute; intros H;
    try discriminate H; repeat split.
Qed.

Lemma scan_digits_app (ds : string) :
  forall (a : N) (rest : string),
    all_digits ds = true -> no_digit_ahead rest = true ->
    scan_digits a (ds ++ rest) = (fst (scan_digits a ds), rest).
Proof.
  induction ds as [|c ds IH]; intros a rest Hd Hr; simpl in *.
  - destruct rest as [|c r]; simpl in *; [reflexivity|].
    apply negb_true_iff in Hr. now rewrite Hr.
  - apply andb_true_iff in Hd as [Hc Hd]. rewrite Hc. now apply IH.
Qed.

Lemma scan_u_numeral (num rest : string) :
  numeral num = true -> no_digit_ahead rest = true ->
  scan_u (num ++ rest) = Converted (uint_of_numeral num) rest.
Proof.
  intros Hn Hr. destruct num as [|c ds]; [discriminate|].
  simpl in Hn. pose proof Hn as Hall.
  apply andb_true_iff in Hn as [Hc Hd].
  destruct (isdigit_facts c Hc) as (Hsp & Hminus & Hplus).
  unfold scan_u. simpl append. cbn [skip_space]. rewrite Hsp, Hminus, Hplus, Hc.
  change (String c (ds ++ rest)) with (String c ds ++ rest).
  rewrite scan_digits_app by assumption. reflexivity.
Qed.

Lemma scan_conv (ds : list directive) (num rest : string) (acc : list N) :
  numeral num = true -> no_digit_ahead rest = true ->
  scan (Conv_u :: ds) (num ++ rest) acc
  = scan ds rest (acc ++ [uint_of_numeral num]).
Proof. intros Hn Hr. cbn [scan]. now rewrite scan_u_numeral. Qed.

Lemma scan_ordinary (ds : list directive) (c : ascii) (rest : string)
    (acc : list N) :
  scan (Ordinary c :: ds) (String c rest) acc = scan ds rest acc.
Proof. cbn [scan]. now rewrite Ascii.eqb_refl. Qed.

Lemma scan_mismatch (ds : list directive) (c c' : ascii) (rest : string)
    (acc : list N) :
  (c' =? c)%char = false ->
  scan (Ordinary c :: ds) (String c' rest) acc = (acc, MatchingFailure).
Proof. intros H. cbn [scan]. now rewrite H. Qed.

Lemma skip_space_numeral (num rest : string) :
  numeral num = true -> skip_space (num ++ rest) = num ++ rest.
Proof.
  intros Hn. destruct num as [|c ds]; [discriminate|].
  simpl in Hn. apply andb_true_iff in Hn as [Hc _].
  destruct (isdigit_facts c Hc) as (Hsp & _). simpl. now rewrite Hsp.
Qed.

(** Three numerals with slashes between them, and anything after that
    does not go on with a digit. *)
Lemma sscanf_slashes (ys ms ds rest : string) :
  numeral ys = true -> numeral ms = true -> numeral ds = true ->
  no_digit_ahead rest = true ->
  sscanf (ys ++ "/" ++ ms ++ "/" ++ ds ++ rest) "%u/%u/%u"
  = (3%Z, [uint_of_numeral ys; uint_of_numeral ms; uint_of_numeral ds]).
Proof.
  intros Hy Hm Hd Hr. unfold sscanf.
  change (directives "%u/%u/%u")
    with [Conv_u; Ordinary "/"; Conv_u; Ordinary "/"; Conv_u].
  simpl append.
  rewrite scan_conv, scan_ordinary by (assumption || reflexivity).
  rewrite scan_conv, scan_ordinary by (assumption || reflexivity).
  rewrite scan_conv by assumption. reflexivity.
Qed.

(** Three numerals with hyphens between them: the first grammar stops at
    the first hyphen, the second matches. *)
Lemma sscanf_hyphens (ys ms ds rest : string) :
  numeral ys = true -> numeral ms = true -> numeral ds = true ->
  no_digit_ahead rest = true ->
  sscanf (ys ++ "-" ++ ms ++ "-" ++ ds ++ rest) "%u/%u/%u"
  = (1%Z, [uint_of_numeral ys])
  /\ sscanf (ys ++ "-" ++ ms ++ "-" ++ ds ++ rest) "%u-%u-%u"
     = (3%Z, [uint_of_numeral ys; uint_of_numeral ms; uint_of_numeral ds]).
Proof.
  intros Hy Hm Hd Hr. unfold sscanf.
  change (directives "%u/%u/%u")
    with [Conv_u; Ordinary "/"; Conv_u; Ordinary "/"; Conv_u].
  change (directives "%u-%u-%u")
    with [Conv_u; Ordinary "-"; Conv_u; Ordinary "-"; Conv_u].
  simpl append. split.
  - rewrite scan_conv by (assumption || reflexivity).
    rewrite scan_mismatch by reflexivity. reflexivity.
  - rewrite scan_conv, scan_ordinary by (assumption || reflexivity).
    rewrite scan_conv, scan_ordinary by (assumption || reflexivity).
    rewrite scan_conv by assumption. reflexivity.
Qed.

(** Six numerals in the shape of an RCS date. *)
Lemma sscanf_rcs (ys ms ds hs mins ss rest : string) :
  numeral ys = true -> numeral ms = true -> numeral ds = true ->
  numeral hs = true -> numeral mins = true -> numeral ss = true ->
  no_digit_ahead rest = true ->
  sscanf (ys ++ "/" ++ ms ++ "/" ++ ds ++ " " ++ hs ++ ":" ++ mins ++ ":"
             ++ ss ++ rest) "%u/%u/%u %u:%u:%u"
  = (6%Z, [uint_of_numeral ys; uint_of_numeral ms; uint_of_numeral ds;
           uint_of_numeral hs; uint_of_numeral mins; uint_of_numeral ss]).
Proof.
  intros Hy Hm Hd Hh Hmin Hs Hr. unfold sscanf.
  change (directives "%u/%u/%u %u:%u:%u")
    with [Conv_u; Ordinary "/"; Conv_u; Ordinary "/"; Conv_u; White;
          Conv_u; Ordinary ":"; Conv_u; Ordinary ":"; Conv_u].
  simpl append.
  rewrite scan_conv, scan_ordinary by (assumption || reflexivity).
  rewrite scan_conv, scan_ordinary by (assumption || reflexivity).
  rewrite scan_conv by (assumption || reflexivity).
  cbn [scan].
  change (skip_space (String " " (hs ++ String ":" (mins ++ String ":" (ss ++ rest)))))
    with (skip_space (hs ++ String ":" (mins ++ String ":" (ss ++ rest)))).
  rewrite skip_space_numeral by assumption.
  rewrite scan_u_numeral by (assumption || reflexivity).
  rewrite Ascii.eqb_refl.
  rewrite scan_u_numeral by (assumption || reflexivity).
  rewrite Ascii.eqb_refl.
  rewrite scan_u_numeral by assumption. reflexivity.
Qed.

(* ================================================================== *)
(** ** The date normalisers *)

(** What a call of [date2str] does, by the string it returns. *)
Lemma date2str_run (v : string) (w : world) :
  date2str (Some v) w
  = Some (match normalizeDate v with
          | Some s => (Some Ptr_date2str_buf, set_date2str_buf s w)
          | None =>
              (None, set_stderr (stderr w ++ ["malformed ISO-8601 date"]) w)
          end).
Proof.
  unfold normalizeDate, result_string, date2str.
  destruct (fst (if (fst (sscanf v "%u/%u/%u") =? 3)%Z
                 then sscanf v "%u/%u/%u" else sscanf v "%u-%u-%u") =? 3)%Z;
    reflexivity.
Qed.

Lemma rcsdate2str_run (v : string) (w : world) :
  rcsdate2str (Some v) w
  = Some (match normalizeRcsDate v with
          | Some s => (Some Ptr_rcsdate2str_buf, set_rcsdate2str_buf s w)
          | None => (None, set_stderr (stderr w ++ ["malformed RCS date"]) w)
          end).
Proof.
  unfold normalizeRcsDate, result_string, rcsdate2str.
  destruct (strlen v <? 7)%nat; [reflexivity|].
  destruct (fst (sscanf (advance 7 v) "%u/%u/%u %u:%u:%u") =? 6)%Z;
    reflexivity.
Qed.

(** The string [date2str] returns does not depend on the world. *)
Lemma date2str_result (v : string) (w : world) :
  result_string (date2str (Some v)) w = normalizeDate v.
Proof.
  unfold result_string at 1. rewrite date2str_run.
  destruct (normalizeDate v); reflexivity.
Qed.

Lemma rcsdate2str_result (v : string) (w : world) :
  result_string (rcsdate2str (Some v)) w = normalizeRcsDate v.
Proof.
  unfold result_string at 1. rewrite rcsdate2str_run.
  destruct (normalizeRcsDate v); reflexivity.
Qed.

(** [date2str] by its two grammars: the slashes first, the hyphens when
    the slashes do not give three numbers, no value when neither does. *)
Lemma normalizeDate_grammars (v : string) :
  normalizeDate v
  = let fmt a :=
      Some (snprintf 32 "%u-%.2u-%.2u"
              [U (stored a 0); U (stored a 1); U (stored a 2)]) in
    if (fst (sscanf v "%u/%u/%u") =? 3)%Z
    then fmt (snd (sscanf v "%u/%u/%u"))
    else if (fst (sscanf v "%u-%u-%u") =? 3)%Z
         then fmt (snd (sscanf v "%u-%u-%u"))
         else None.
Proof.
  unfold normalizeDate, result_string, date2str. cbv zeta.
  destruct (fst (sscanf v "%u/%u/%u") =? 3)%Z eqn:E1.
  - rewrite E1. reflexivity.
  - destruct (fst (sscanf v "%u-%u-%u") =? 3)%Z eqn:E2; reflexivity.
Qed.

Lemma normalizeRcsDate_grammar (v : string) :
  normalizeRcsDate v
  = if (String.length v <? 7)%nat then None
    else
      let a := snd (sscanf (advance 7 v) "%u/%u/%u %u:%u:%u") in
      if (fst (sscanf (advance 7 v) "%u/%u/%u %u:%u:%u") =? 6)%Z
      then Some (snprintf 32 "%u-%.2u-%.2u"
                   [U (stored a 0); U (stored a 1); U (stored a 2)])
      else None.
Proof.
  unfold normalizeRcsDate, result_string, rcsdate2str, strlen. cbv zeta.
  destruct (String.length v <? 7)%nat; [reflexivity|].
  destruct (fst (sscanf (advance 7 v) "%u/%u/%u %u:%u:%u") =? 6)%Z;
    reflexivity.
Qed.

Lemma uint_of_numeral_lt (s : string) : (uint_of_numeral s < 2 ^ 32)%N.
Proof. unfold uint_of_numeral. apply N.mod_lt. discriminate. Qed.

(** Three numerals separated by slashes or by hyphens, followed by any
    text that does not go on with a digit, normalise to the numbers they
    denote, without a range check; the result is cut to the 31 characters
    the buffer holds. *)
Lemma normalizeDate_numerals (ys ms ds rest : string) :
  numeral ys = true -> numeral ms = true -> numeral ds = true ->
  no_digit_ahead rest = true ->
  let r := Some (snprintf 32 "%u-%.2u-%.2u"
                   [U (uint_of_numeral ys); U (uint_of_numeral ms);
                    U (uint_of_numeral ds)]) in
  normalizeDate (ys ++ "/" ++ ms ++ "/" ++ ds ++ rest) = r
  /\ normalizeDate (ys ++ "-" ++ ms ++ "-" ++ ds ++ rest) = r.
Proof.
  intros Hy Hm Hd Hr r. rewrite !normalizeDate_grammars. cbv zeta.
  rewrite sscanf_slashes by assumption.
  destruct (sscanf_hyphens ys ms ds rest Hy Hm Hd Hr) as [E1 E2].
  rewrite E1, E2. split; reflexivity.
Qed.

Lemma advance_app (p s : string) : advance (String.length p) (p ++ s) = s.
Proof. induction p as [|c p IH]; simpl; [now destruct s | exact IH]. Qed.

Lemma normalizeRcsDate_numerals (tag ys ms ds hs mins ss rest : string) :
  String.length tag = 7 ->
  numeral ys = true -> numeral ms = true -> numeral ds = true ->
  numeral hs = true -> numeral mins = true -> numeral ss = true ->
  no_digit_ahead rest = true ->
  normalizeRcsDate (tag ++ ys ++ "/" ++ ms ++ "/" ++ ds ++ " " ++ hs ++ ":"
                        ++ mins ++ ":" ++ ss ++ rest)
  = Some (snprintf 32 "%u-%.2u-%.2u"
            [U (uint_of_numeral ys); U (uint_of_numeral ms);
             U (uint_of_numeral ds)]).
Proof.
  intros Ht Hy Hm Hd Hh Hmin Hs Hr. rewrite normalizeRcsDate_grammar.
  assert (Hadv : forall s, advance 7 (tag ++ s) = s).
  { intros s. rewrite <- Ht. apply advance_app. }
  assert (Hlen : forall s, (String.length (tag ++ s) <? 7)%nat = false).
  { intros s. apply Nat.ltb_ge. rewrite append_length. lia. }
  rewrite Hlen, Hadv. cbv zeta.
  rewrite sscanf_rcs by assumption. reflexivity.
Qed.

(** A string of fewer than 7 characters has no RCS date. *)
Lemma normalizeRcsDate_short (v : string) :
  String.length v < 7 -> normalizeRcsDate v = None.
Proof.
  intros H. rewrite normalizeRcsDate_grammar.
  now rewrite (proj2 (Nat.ltb_lt _ _) H).
Qed.

(* ================================================================== *)
(** ** The metadata scan of the envelope *)

Lemma last_entry_cons (p : lowdown_meta -> bool) (e : lowdown_meta)
    (m : list lowdown_meta) :
  Spec.last_entry p (e :: m)
  = match Spec.last_entry p m with
    | Some e' => Some e'
    | None => if p e then Some e else None
    end.
Proof. reflexivity. Qed.

Lemma last_entry_app (p : lowdown_meta -> bool) (e : lowdown_meta)
    (m1 m2 : list lowdown_meta) :
  p e = true -> Spec.last_entry p m2 = None ->
  Spec.last_entry p (m1 ++ e :: m2) = Some e.
Proof.
  intros He Hm2. induction m1 as [|x m1 IH]; simpl.
  - now rewrite Hm2, He.
  - now rewrite IH.
Qed.

Lemma has_key_entry (k' k v : string) :
  Spec.has_key k' {| key := k; value := v |} = (k =? k')%string.
Proof. reflexivity. Qed.

Lemma is_date_entry_entry (k v : string) :
  Spec.is_date_entry {| key := k; value := v |}
  = ((k =? "rcsdate")%string || (k =? "date")%string).
Proof. reflexivity. Qed.

(** The last entry of the rest wins over the entry at hand. *)
Ltac by_last_entry m :=
  repeat match goal with
         | |- context [Spec.last_entry ?p m] => destruct (Spec.last_entry p m)
         end;
  reflexivity.

Ltac date_slot_of Hd m :=
  revert Hd; destruct (Spec.last_entry Spec.is_date_entry m);
  [exact (fun H => H)|]; cbv [date_slot date_of_entry]; cbn; intros Hd.

Lemma meta_loop_run (m : list lowdown_meta) :
  forall (title : string) (author : option string) (date : option charptr)
         (w : world),
  exists date' w',
    meta_loop m title author date w
    = Some ((match Spec.last_entry (Spec.has_key "title") m with
             | Some e => value e
             | None => title
             end,
             match Spec.last_entry (Spec.has_key "author") m with
             | Some e => Some (value e)
             | None => author
             end,
             date'), w')
    /\ clock w' = clock w
    /\ hbufs w' = hbufs w
    /\ date_slot (Spec.last_entry Spec.is_date_entry m) date w date' w'.
Proof.
  induction m as [|[k v] m IH]; intros title author date w.
  - exists date, w. repeat split.
  - cbn [meta_loop key value]. unfold streq. rewrite !last_entry_cons.
    rewrite !has_key_entry, is_date_entry_entry.
    destruct (String.eqb_spec k "title") as [->|Htitle].
    { destruct (IH v author date w) as (date' & w' & Heq & Hc & Hh & Hd).
      exists date', w'. rewrite Heq. cbn.
      split; [by_last_entry m|]. split; [exact Hc|]. split; [exact Hh|].
      date_slot_of Hd m. exact Hd. }
    destruct (String.eqb_spec k "author") as [->|Hauthor].
    { destruct (IH title (Some v) date w) as (date' & w' & Heq & Hc & Hh & Hd).
      exists date', w'. rewrite Heq. cbn.
      split; [by_last_entry m|]. split; [exact Hc|]. split; [exact Hh|].
      date_slot_of Hd m. exact Hd. }
    destruct (String.eqb_spec k "rcsdate") as [->|Hrcs].
    { unfold bind. rewrite rcsdate2str_run.
      destruct (normalizeRcsDate v) as [s|] eqn:Hn.
      - destruct (IH title author (Some Ptr_rcsdate2str_buf)
                    (set_rcsdate2str_buf s w)) as (date' & w' & Heq & Hc & Hh & Hd).
        exists date', w'. rewrite Heq. cbn.
        split; [by_last_entry m|]. split; [exact Hc|]. split; [exact Hh|].
        date_slot_of Hd m. rewrite Hn.
        destruct Hd as (-> & _ & Hb). exists Ptr_rcsdate2str_buf.
        split; [reflexivity | exact Hb].
      - destruct (IH title author None
                    (set_stderr (stderr w ++ ["malformed RCS date"]) w))
          as (date' & w' & Heq & Hc & Hh & Hd).
        exists date', w'. rewrite Heq. cbn.
        split; [by_last_entry m|]. split; [exact Hc|]. split; [exact Hh|].
        date_slot_of Hd m. rewrite Hn. now destruct Hd as (-> & _). }
    destruct (String.eqb_spec k "date") as [->|Hdate].
    { unfold bind. rewrite date2str_run.
      destruct (normalizeDate v) as [s|] eqn:Hn.
      - destruct (IH title author (Some Ptr_date2str_buf)
                    (set_date2str_buf s w)) as (date' & w' & Heq & Hc & Hh & Hd).
        exists date', w'. rewrite Heq. cbn.
        split; [by_last_entry m|]. split; [exact Hc|]. split; [exact Hh|].
        date_slot_of Hd m. rewrite Hn.
        destruct Hd as (-> & Hb & _). exists Ptr_date2str_buf.
        split; [reflexivity | exact Hb].
      - destruct (IH title author None
                    (set_stderr (stderr w ++ ["malformed ISO-8601 date"]) w))
          as (date' & w' & Heq & Hc & Hh & Hd).
        exists date', w'. rewrite Heq. cbn.
        split; [by_last_entry m|]. split; [exact Hc|]. split; [exact Hh|].
        date_slot_of Hd m. rewrite Hn. now destruct Hd as (-> & _). }
    destruct (IH title author date w) as (date' & w' & Heq & Hc & Hh & Hd).
    exists date', w'. rewrite Heq. cbn.
    split; [by_last_entry m|]. split; [exact Hc|]. split; [exact Hh|].
    revert Hd. destruct (Spec.last_entry Spec.is_date_entry m);
      intros Hd; exact Hd.
Qed.

(** The date of the day, as [strftime] writes it for a calendar date. *)
Lemma strftime_today (t : tm) :
  calendar t ->
  strftime 32 "%F" t = today t /\ String.length (today t) = 10.
Proof.
  intros (Hy & Hm & Hd). unfold strftime.
  change (streq "%F" "%F") with true. cbv iota zeta.
  rewrite sprintf_date. fold (today t).
  assert (Hlen : String.length (today t) = 10).
  { unfold today. rewrite canonical_date_length.
    assert (String.length (utoa (tm_year t + 1900)) = 4).
    { pose proof (utoa_length_le 3 (tm_year t + 1900)) as Hle.
      pose proof (utoa_length_gt 3 (tm_year t + 1900)) as Hgt.
      change (pow10 4) with 10000%N in Hle.
      change (pow10 3) with 1000%N in Hgt. lia. }
    assert (String.length (utoa (tm_mon t + 1)) <= 2).
    { apply (utoa_length_le 1). change (pow10 2) with 100%N. lia. }
    assert (String.length (utoa (tm_mday t)) <= 2).
    { apply (utoa_length_le 1). change (pow10 2) with 100%N. lia. }
    lia. }
  rewrite Hlen. split; reflexivity.
Qed.

(** The scan and the default after it, run in a world whose clock shows a
    calendar date. *)
Lemma resolve_meta_run (m : list lowdown_meta) (w : world) :
  calendar (clock w) ->
  exists (p : charptr) (buf : string) (w' : world),
    resolve_meta m w
    = Some ((resolved_title m, resolved_author m, p, buf), w')
    /\ load w' buf p = resolved_date m (clock w)
    /\ hbufs w' = hbufs w.
Proof.
  intros Hcal. destruct (strftime_today _ Hcal) as [Hstr Hlen].
  unfold resolve_meta, bind.
  destruct (meta_loop_run m "Untitled article" None None w)
    as (date' & w' & -> & Hc & Hh & Hd).
  unfold resolved_title, resolved_author, resolved_date.
  unfold date_slot in Hd.
  destruct (Spec.last_entry Spec.is_date_entry m) as [e|].
  - destruct (date_of_entry e) as [s|].
    + destruct Hd as (p & -> & Hp). exists p, "", w'.
      split; [reflexivity|]. split; [destruct p; exact Hp | exact Hh].
    + subst date'. unfold localtime_now, ret.
      eexists Ptr_local_buf, _, w'. split; [reflexivity|].
      cbn. rewrite Hc. split; [exact Hstr | exact Hh].
  - destruct Hd as (-> & _). unfold localtime_now, ret.
    eexists Ptr_local_buf, _, w'. split; [reflexivity|].
    cbn. rewrite Hc. split; [exact Hstr | exact Hh].
Qed.

(** C1.  For every metadata sequence and every world whose clock shows a
    calendar date: the scan of [lowdown_standalone_open] and the default
    that follows it leave the title of the last entry with key [title]
    (or [Untitled article]), the author of the last entry with key
    [author] (or none), and a date pointer whose string is the normalised
    date of the last entry with key [rcsdate] or [date], by
    [rcsdate2str] or [date2str] after its key; when that entry does not
    normalise, or there is no such entry, the string is the local date as
    YYYY-MM-DD, ten characters long.  So the last such entry alone decides:
    the entries before it, normalised or not, do not count. *)
Theorem resolve_meta_last_wins (m : list lowdown_meta) (w : world) :
  calendar (clock w) ->
  (exists (p : charptr) (buf : string) (w' : world),
      resolve_meta m w
      = Some ((resolved_title m, resolved_author m, p, buf), w')
      /\ load w' buf p = resolved_date m (clock w))
  /\ String.length (today (clock w)) = 10
  /\ (forall (m1 m2 : list lowdown_meta) (e : lowdown_meta),
        m = (m1 ++ e :: m2)%list ->
        Spec.is_date_entry e = true ->
        Spec.last_entry Spec.is_date_entry m2 = None ->
        resolved_date m (clock w)
        = match date_of_entry e with
          | Some s => s
          | None => today (clock w)
          end).
Proof.
  intros Hcal. split; [|split].
  - destruct (resolve_meta_run m w Hcal) as (p & buf & w' & Hrun & Hload & _).
    now exists p, buf, w'.
  - exact (proj2 (strftime_today _ Hcal)).
  - intros m1 m2 e -> He Hm2. unfold resolved_date.
    now rewrite (last_entry_app _ e m1 m2 He Hm2).
Qed.

(** The order of a [date] and an [rcsdate] entry decides, and a date that
    does not normalise erases the one before it. *)
Lemma resolved_date_examples (t : tm) :
  resolved_date
    [entry "date" "2020-01-01"; entry "rcsdate" "$Date: 2021/02/02 00:00:00$"]
    t = "2021-02-02"
  /\ resolved_date
       [entry "rcsdate" "$Date: 2021/02/02 00:00:00$"; entry "date" "2020-01-01"]
       t = "2020-01-01"
  /\ resolved_date
       [entry "date" "2020-01-01"; entry "date" "tomorrow"] t = today t
  /\ resolved_date [entry "title" "A title"] t = today t.
Proof. repeat split; reflexivity. Qed.

Lemma resolve_meta_last_wins_witness :
  calendar (clock world0)
  /\ (exists (p : charptr) (buf : string) (w' : world),
         resolve_meta
           [entry "date" "2020-01-01";
            entry "rcsdate" "$Date: 2021/02/02 00:00:00$"] world0
         = Some (("Untitled article", None, p, buf), w')
         /\ load w' buf p = "2021-02-02").
Proof.
  assert (Hcal : calendar (clock world0)).
  { unfold calendar, world0. cbn. lia. }
  split; [exact Hcal|].
  exact (proj1 (resolve_meta_last_wins
                  [entry "date" "2020-01-01";
                   entry "rcsdate" "$Date: 2021/02/02 00:00:00$"]
                  world0 Hcal)).
Defined.

(* ================================================================== *)
(** ** The normalisers on the dates of the specification *)

Lemma normalizeDate_examples :
  normalizeDate "2021/3/5" = Some "2021-03-05"
  /\ normalizeDate "2021-3-5" = Some "2021-03-05"
  /\ normalizeDate "not-a-date" = None
  /\ normalizeDate "2021/3/5 trailing junk" = Some "2021-03-05"
  /\ normalizeDate "2021/99/99" = Some "2021-99-99".
Proof. repeat split; reflexivity. Qed.

Lemma normalizeRcsDate_examples :
  normalizeRcsDate "$Date: 2021/03/05 10:11:12 $" = Some "2021-03-05"
  /\ normalizeRcsDate "$Date:" = None
  /\ normalizeRcsDate "$Date: 2021/03/05 10:11 $" = None.
Proof. repeat split; reflexivity. Qed.

(** A date that does not normalise leaves a warning on the standard error
    stream, and nothing else changes. *)
Lemma date2str_warns (v : string) (w : world) :
  normalizeDate v = None ->
  date2str (Some v) w
  = Some (None, set_stderr (stderr w ++ ["malformed ISO-8601 date"]) w).
Proof. intros H. now rewrite date2str_run, H. Qed.

Lemma rcsdate2str_warns (v : string) (w : world) :
  normalizeRcsDate v = None ->
  rcsdate2str (Some v) w
  = Some (None, set_stderr (stderr w ++ ["malformed RCS date"]) w).
Proof. intros H. now rewrite rcsdate2str_run, H. Qed.

(** Numerals that are not all ten digits long give the Canonical Date of
    the numbers they denote, whatever these are. *)
Lemma normalizeDate_canonical (ys ms ds rest : string) :
  numeral ys = true -> numeral ms = true -> numeral ds = true ->
  no_digit_ahead rest = true ->
  (uint_of_numeral ys < 10 ^ 9 \/ uint_of_numeral ms < 10 ^ 9
   \/ uint_of_numeral ds < 10 ^ 9)%N ->
  let r := Some (Spec.canonical_date (uint_of_numeral ys)
                   (uint_of_numeral ms) (uint_of_numeral ds)) in
  normalizeDate (ys ++ "/" ++ ms ++ "/" ++ ds ++ rest) = r
  /\ normalizeDate (ys ++ "-" ++ ms ++ "-" ++ ds ++ rest) = r.
Proof.
  intros Hy Hm Hd Hr Hfit r.
  destruct (normalizeDate_numerals ys ms ds rest Hy Hm Hd Hr) as [E1 E2].
  rewrite E1, E2. unfold r.
  rewrite snprintf_date_fits by (apply uint_of_numeral_lt || exact Hfit).
  split; reflexivity.
Qed.

Lemma normalizeRcsDate_canonical (tag ys ms ds hs mins ss rest : string) :
  String.length tag = 7 ->
  numeral ys = true -> numeral ms = true -> numeral ds = true ->
  numeral hs = true -> numeral mins = true -> numeral ss = true ->
  no_digit_ahead rest = true ->
  (uint_of_numeral ys < 10 ^ 9 \/ uint_of_numeral ms < 10 ^ 9
   \/ uint_of_numeral ds < 10 ^ 9)%N ->
  normalizeRcsDate (tag ++ ys ++ "/" ++ ms ++ "/" ++ ds ++ " " ++ hs ++ ":"
                        ++ mins ++ ":" ++ ss ++ rest)
  = Some (Spec.canonical_date (uint_of_numeral ys) (uint_of_numeral ms)
            (uint_of_numeral ds)).
Proof.
  intros Ht Hy Hm Hd Hh Hmin Hs Hr Hfit.
  rewrite normalizeRcsDate_numerals by assumption.
  now rewrite snprintf_date_fits by (apply uint_of_numeral_lt || exact Hfit).
Qed.

Lemma digits_split (s : string) :
  s = leading_digits s ++ after_digits s
  /\ all_digits (leading_digits s) = true
  /\ no_digit_ahead (after_digits s) = true.
Proof.
  induction s as [|c s (IH1 & IH2 & IH3)]; simpl; [repeat split|].
  destruct (isdigit c) eqn:Hc; simpl.
  - rewrite Hc, <- IH1. repeat split; assumption.
  - rewrite Hc. repeat split.
Qed.

Lemma numeral_app (a b : string) :
  numeral a = true -> all_digits b = true -> numeral (a ++ b) = true.
Proof.
  destruct a as [|c a]; [discriminate|]. simpl. intros Ha Hb.
  apply andb_true_iff in Ha as [Hc Ha]. rewrite Hc. simpl.
  clear Hc. induction a as [|x a IH]; simpl in *; [exact Hb|].
  apply andb_true_iff in Ha as [Hx Ha]. rewrite Hx. now apply IH.
Qed.

(** Whatever follows the third numeral, the date normalises. *)
Lemma normalizeDate_any_tail (ys ms ds rest : string) :
  numeral ys = true -> numeral ms = true -> numeral ds = true ->
  normalizeDate (ys ++ "/" ++ ms ++ "/" ++ ds ++ rest) <> None
  /\ normalizeDate (ys ++ "-" ++ ms ++ "-" ++ ds ++ rest) <> None.
Proof.
  intros Hy Hm Hd.
  destruct (digits_split rest) as (Hsplit & Hlead & Hafter).
  rewrite Hsplit, <- (append_assoc ds).
  assert (Hd' : numeral (ds ++ leading_digits rest) = true)
    by now apply numeral_app.
  destruct (normalizeDate_numerals ys ms _ _ Hy Hm Hd' Hafter) as [E1 E2].
  rewrite E1, E2. split; discriminate.
Qed.

Lemma normalizeRcsDate_any_tail (tag ys ms ds hs mins ss rest : string) :
  String.length tag = 7 ->
  numeral ys = true -> numeral ms = true -> numeral ds = true ->
  numeral hs = true -> numeral mins = true -> numeral ss = true ->
  normalizeRcsDate (tag ++ ys ++ "/" ++ ms ++ "/" ++ ds ++ " " ++ hs ++ ":"
                        ++ mins ++ ":" ++ ss ++ rest) <> None.
Proof.
  intros Ht Hy Hm Hd Hh Hmin Hs.
  destruct (digits_split rest) as (Hsplit & Hlead & Hafter).
  rewrite Hsplit, <- (append_assoc ss).
  assert (Hs' : numeral (ss ++ leading_digits rest) = true)
    by now apply numeral_app.
  rewrite (normalizeRcsDate_numerals tag ys ms ds hs mins _ _ Ht Hy Hm Hd
             Hh Hmin Hs' Hafter).
  discriminate.
Qed.

(** C5 fails on the code at a date of three ten-digit numbers: the first
    grammar matches all three, and of the 32 characters of the Canonical
    Date the 32-byte buffer of [date2str] keeps 31, so that the last digit
    of the day is lost, in the result and in the preamble made of it. *)
Theorem date2str_cuts_the_date :
  sscanf "1000000000/1000000000/1000000000" "%u/%u/%u"
  = (3%Z, [1000000000%N; 1000000000%N; 1000000000%N])
  /\ Spec.canonical_date 1000000000 1000000000 1000000000
     = "1000000000-1000000000-1000000000"
  /\ normalizeDate "1000000000/1000000000/1000000000"
     = Some "1000000000-1000000000-100000000"
  /\ normalizeDate "1000000000-1000000000-1000000000"
     = Some "1000000000-1000000000-100000000"
  /\ option_map fst
       (lowdown_standalone_open
          (Some {| type := LOWDOWN_NROFF; feat := 0; oflags := 0 |})
          [entry "date" "1000000000/1000000000/1000000000"] world0)
     = Some (".DA 1000000000-1000000000-100000000" ++ NL ++ ".TL" ++ NL
               ++ "Untitled article" ++ NL).
Proof. repeat split; reflexivity. Qed.

(** C6 fails on the code at an RCS date of three ten-digit numbers: all six
    numbers match, and the 32-byte buffer of [rcsdate2str] keeps 31 of the
    32 characters of the Canonical Date. *)
Theorem rcsdate2str_cuts_the_date :
  sscanf "1000000000/1000000000/1000000000 10:11:12 $" "%u/%u/%u %u:%u:%u"
  = (6%Z, [1000000000%N; 1000000000%N; 1000000000%N; 10%N; 11%N; 12%N])
  /\ normalizeRcsDate "$Date: 1000000000/1000000000/1000000000 10:11:12 $"
     = Some "1000000000-1000000000-100000000"
  /\ normalizeRcsDate "$Date: 1000000000/1000000000/1000000000 10:11:12 $"
     <> Some (Spec.canonical_date 1000000000 1000000000 1000000000).
Proof. repeat split; try reflexivity. discriminate. Qed.

(** C10 fails on the code where month and day are out of the calendar range
    by so much that they have ten digits, after a year of ten digits: the
    day is not written as it is, its last digit is cut, with or without
    text after the date. *)
Theorem normalizers_cut_the_day :
  normalizeDate "2000000000/3000000000/4000000000 trailing junk"
  = Some "2000000000-3000000000-400000000"
  /\ normalizeRcsDate "$Date: 2000000000/3000000000/4000000000 1:2:3 junk"
     = Some "2000000000-3000000000-400000000"
  /\ Spec.canonical_date 2000000000 3000000000 4000000000
     = "2000000000-3000000000-4000000000".
Proof. repeat split; reflexivity. Qed.

(* ================================================================== *)
(** ** The envelope with a configuration *)

Lemma sprintf_DA (d : string) :
  sprintf (".DA %s" ++ NL ++ ".TL" ++ NL) [Str d]
  = ".DA " ++ d ++ NL ++ ".TL" ++ NL.
Proof. reflexivity. Qed.

Lemma sprintf_TH (d : string) :
  sprintf (DQ ++ " 7 %s" ++ NL) [Str d] = DQ ++ " 7 " ++ d ++ NL.
Proof. reflexivity. Qed.

(** With a configuration, and a clock that shows a calendar date, the
    preamble is defined, and is made of the resolved title, author and
    date. *)
Lemma lowdown_standalone_open_run (o : lowdown_opts) (m : list lowdown_meta)
    (w : world) :
  calendar (clock w) ->
  exists w',
    lowdown_standalone_open (Some o) m w
    = Some (match type o with
            | LOWDOWN_HTML =>
                html_head ++ Spec.escapeTitle (resolved_title m) ++ html_neck
            | LOWDOWN_NROFF =>
                (".DA " ++ resolved_date m (clock w) ++ NL ++ ".TL" ++ NL)
                  ++ Spec.escapeRoff (resolved_title m) true
                  ++ match resolved_author m with
                     | Some a => ".AU" ++ NL ++ Spec.escapeRoff a true
                     | None => ""
                     end
            | LOWDOWN_MAN =>
                (".TH " ++ DQ) ++ Spec.escapeRoff (resolved_title m) false
                  ++ DQ ++ " 7 " ++ resolved_date m (clock w) ++ NL
            end, w')
    /\ hbufs w' = hbufs w.
Proof.
  intros Hcal. unfold lowdown_standalone_open.
  unfold bind at 1. unfold hbuf_new. unfold bind at 1.
  destruct (resolve_meta_run m (set_hbufs (S (hbufs w)) w) Hcal)
    as (p & buf & w' & -> & Hload & Hh).
  cbn [clock hbufs set_hbufs] in Hload, Hh.
  unfold deref, ret, bind, hbuf_free, HBUF_PUTSL, hbuf_printf.
  assert (Hfree : forall x : world,
             hbufs x = S (hbufs w) -> hbufs (set_hbufs (pred (hbufs x)) x) = hbufs w).
  { intros x Hx. cbn. now rewrite Hx. }
  destruct (type o); eexists; split.
  - rewrite html_title_run. cbn [append]. now rewrite !append_assoc.
  - now apply Hfree.
  - rewrite serialise_roff_run, sprintf_TH, Hload. cbn [append].
    now rewrite !append_assoc.
  - now apply Hfree.
  - rewrite sprintf_DA, Hload.
    destruct (resolved_author m) as [a|]; rewrite !serialise_roff_run;
      cbn [append]; rewrite ?append_assoc, ?append_nil_r; reflexivity.
  - now apply Hfree.
Qed.

Lemma lowdown_standalone_close_run (o : lowdown_opts) (w : world) :
  lowdown_standalone_close (Some o) w
  = Some (match type o with
          | LOWDOWN_HTML => "</body>" ++ NL ++ "</html>" ++ NL
          | LOWDOWN_MAN | LOWDOWN_NROFF => ""
          end, w).
Proof.
  unfold lowdown_standalone_close, bind, hbuf_new, hbuf_free, deref, ret.
  destruct w; destruct (type o); reflexivity.
Qed.

(* ================================================================== *)
(** ** Further properties: the escapers *)

Lemma append_inv_head (a b c : string) : a ++ b = a ++ c -> b = c.
Proof.
  induction a as [|x a IH]; simpl; intros H; [exact H|].
  injection H as H. auto.
Qed.

Lemma append_inv_tail_char (c : ascii) (a : string) :
  forall b, a ++ String c "" = b ++ String c "" -> a = b.
Proof.
  induction a as [|x a IH]; intros [|y b] H; simpl in H.
  - reflexivity.
  - injection H as _ H. destruct b; discriminate H.
  - injection H as _ H. destruct a; discriminate H.
  - injection H as -> H. f_equal. now apply IH.
Qed.

Lemma string_forall_app (p : ascii -> bool) (a b : string) :
  string_forall p (a ++ b) = string_forall p a && string_forall p b.
Proof.
  induction a as [|c a IH]; simpl; [reflexivity|].
  now rewrite IH, andb_assoc.
Qed.

Lemma string_forall_subst (p : ascii -> bool) (f : ascii -> string) :
  (forall c, string_forall p (f c) = true) ->
  forall s, string_forall p (Spec.subst_chars f s) = true.
Proof.
  intros Hf s. induction s as [|c s IH]; simpl; [reflexivity|].
  now rewrite string_forall_app, Hf, IH.
Qed.

Lemma string_forall_weaken (p q : ascii -> bool) :
  (forall c, p c = true -> q c = true) ->
  forall s, string_forall p s = true -> string_forall q s = true.
Proof.
  intros Hpq s. induction s as [|c s IH]; simpl; [reflexivity|].
  intros H. apply andb_true_iff in H as [Hc Hs].
  now rewrite (Hpq c Hc), IH.
Qed.

Lemma count_char_app (c : ascii) (a b : string) :
  count_char c (a ++ b) = count_char c a + count_char c b.
Proof.
  induction a as [|x a IH]; simpl; [reflexivity|]. rewrite IH. lia.
Qed.

Lemma count_char_subst (c : ascii) (f : ascii -> string) :
  (forall x, count_char c (f x) = 0) ->
  forall s, count_char c (Spec.subst_chars f s) = 0.
Proof.
  intros Hf s. induction s as [|x s IH]; simpl; [reflexivity|].
  now rewrite count_char_app, Hf, IH.
Qed.

Lemma count_char_absent (p : ascii -> bool) (c : ascii) :
  p c = false ->
  forall s, string_forall p s = true -> count_char c s = 0.
Proof.
  intros Hc s. induction s as [|x s IH]; simpl; [reflexivity|].
  intros H. apply andb_true_iff in H as [Hx Hs].
  destruct (Ascii.eqb_spec x c) as [->|_]; [congruence|]. now apply IH.
Qed.

Lemma subst_chars_app (f : ascii -> string) (a b : string) :
  Spec.subst_chars f (a ++ b) = Spec.subst_chars f a ++ Spec.subst_chars f b.
Proof.
  induction a as [|c a IH]; simpl; [reflexivity|].
  now rewrite IH, append_assoc.
Qed.

Lemma drop_while_space_app (ws v : string) :
  string_forall isspace ws = true ->
  Spec.drop_while isspace (ws ++ v) = Spec.drop_while isspace v.
Proof.
  induction ws as [|c ws IH]; simpl; [reflexivity|].
  intros H. apply andb_true_iff in H as [Hc Hws]. rewrite Hc. now apply IH.
Qed.

Lemma drop_while_space_all (ws : string) :
  string_forall isspace ws = true -> Spec.drop_while isspace ws = "".
Proof.
  intros H. rewrite <- (append_nil_r ws).
  now rewrite drop_while_space_app.
Qed.

(** Text that starts with a character that is not white space stays when
    the white space before it is skipped. *)
Lemma drop_while_space_before (a : string) (c : ascii) (b : string) :
  isspace c = false ->
  Spec.drop_while isspace (a ++ String c b)
  = Spec.drop_while isspace a ++ String c b.
Proof.
  intros Hc. induction a as [|x a IH]; simpl.
  - now rewrite Hc.
  - destruct (isspace x); [exact IH | reflexivity].
Qed.

Lemma title_char_markup_free (c : ascii) :
  string_forall markup_free (Spec.title_char c) = true.
Proof. destruct c as [[] [] [] [] [] [] [] []]; reflexivity. Qed.

Lemma roff_char_space_only (b : bool) (c : ascii) :
  string_forall space_only (Spec.roff_char b c) = true.
Proof. destruct b, c as [[] [] [] [] [] [] [] []]; reflexivity. Qed.

Lemma roff_char_quote_free (c : ascii) :
  string_forall quote_free (Spec.roff_char false c) = true.
Proof. destruct c as [[] [] [] [] [] [] [] []]; reflexivity. Qed.

Lemma roff_char_no_dot (c : ascii) :
  (c =? ".")%char = false ->
  forall s, at_char "." (Spec.roff_char true c ++ s) = false.
Proof.
  destruct c as [[] [] [] [] [] [] [] []]; intros H s;
    try discriminate H; reflexivity.
Qed.

Lemma unroff_roff_char (b : bool) (c : ascii) (r : string) :
  space_only c = true ->
  unroff (Spec.roff_char b c ++ r) = String c (unroff r).
Proof.
  destruct b, c as [[] [] [] [] [] [] [] []]; intros H;
    try discriminate H; reflexivity.
Qed.

Lemma unroff_subst (b : bool) (v tail : string) :
  string_forall space_only v = true ->
  unroff (Spec.subst_chars (Spec.roff_char b) v ++ tail) = v ++ unroff tail.
Proof.
  induction v as [|c v IH]; simpl; intros H; [reflexivity|].
  apply andb_true_iff in H as [Hc Hv].
  now rewrite append_assoc, unroff_roff_char, IH.
Qed.

Lemma drop_while_plain (v : string) :
  plain v = true -> Spec.drop_while isspace v = v.
Proof.
  unfold plain. intros H. apply andb_true_iff in H as [Hall Hfirst].
  destruct v as [|c v]; [reflexivity|]. simpl in *.
  apply andb_true_iff in Hall as [Hc _]. apply negb_true_iff in Hfirst.
  unfold space_only in Hc. rewrite Hfirst, orb_false_r in Hc.
  apply negb_true_iff in Hc. now rewrite Hc.
Qed.

(** What [unroff] reads back from the escaped form of a plain string. *)
Lemma unroff_escapeRoff (v : string) (b : bool) :
  plain v = true ->
  unroff (Spec.escapeRoff v b) = v ++ (if b then NL else "").
Proof.
  intros Hp. unfold Spec.escapeRoff. rewrite (drop_while_plain v Hp).
  apply andb_true_iff in Hp as [Hall _].
  assert (Hbody : unroff (Spec.subst_chars (Spec.roff_char b) v
                            ++ (if b then NL else ""))
                  = v ++ (if b then NL else "")).
  { rewrite unroff_subst by exact Hall. now destruct b. }
  destruct (b && Spec.starts_with "." v); [|exact Hbody].
  change ("\&" ++ ?x) with (String "\" (String "&" x)).
  cbn [append]. exact Hbody.
Qed.

(** The title between [<title>] and [</title>] holds neither angle bracket
    and no white space but spaces: a title cannot open or close a tag, nor
    break the line. *)
Theorem html_title_markup_free (title : string) :
  string_forall markup_free (html_title "" title) = true.
Proof.
  rewrite html_title_run. cbn [append]. unfold Spec.escapeTitle.
  apply string_forall_subst, title_char_markup_free.
Qed.

(** The title escaping does not tell an angle bracket from its own escape:
    a title with [<] and the same title with [&lt;] in its place give the
    same output (the ampersand is copied as it is). *)
Theorem html_title_confuses_escape (op : hbuf) (a b : string) :
  html_title op (a ++ "<" ++ b) = html_title op (a ++ "&lt;" ++ b)
  /\ html_title op (a ++ ">" ++ b) = html_title op (a ++ "&gt;" ++ b).
Proof.
  rewrite !html_title_run. unfold Spec.escapeTitle. cbn [append].
  rewrite !drop_while_space_before by reflexivity.
  rewrite !subst_chars_app. split; reflexivity.
Qed.

(** In inline position the escaped text holds no double quote and no white
    space but spaces: it cannot end the quoted argument of [.TH], nor the
    line. *)
Theorem serialise_roff_inline_quote_free (v : string) :
  string_forall quote_free (serialise_roff "" v false) = true.
Proof.
  rewrite serialise_roff_run. cbn [append]. unfold Spec.escapeRoff.
  cbn [andb append]. rewrite append_nil_r.
  apply string_forall_subst, roff_char_quote_free.
Qed.

(** In block position the escaped text is one line: text without a
    newline (its only white space is spaces) that does not start with a
    dot, and the newline after it. *)
Theorem serialise_roff_block_one_line (v : string) :
  exists line : string,
    serialise_roff "" v true = line ++ NL
    /\ string_forall space_only line = true
    /\ at_char "." line = false.
Proof.
  rewrite serialise_roff_run. cbn [append]. unfold Spec.escapeRoff.
  cbn [andb]. set (t := Spec.drop_while isspace v).
  exists ((if Spec.starts_with "." t then "\&" else "")
            ++ Spec.subst_chars (Spec.roff_char true) t).
  split; [now rewrite append_assoc|]. split.
  - rewrite string_forall_app.
    rewrite (string_forall_subst space_only _ (roff_char_space_only true)).
    now destruct (Spec.starts_with "." t).
  - destruct t as [|c t']; [reflexivity|]. unfold Spec.starts_with.
    destruct (c =? ".")%char eqn:Hc; [reflexivity|].
    cbn [append Spec.subst_chars]. now apply roff_char_no_dot.
Qed.

(** On plain strings (no white space but spaces, none at the start) the
    roff escaping loses nothing: two plain strings with the same escaped
    form are the same string. *)
Theorem serialise_roff_injective (op : hbuf) (v1 v2 : string) (block : bool) :
  plain v1 = true -> plain v2 = true ->
  serialise_roff op v1 block = serialise_roff op v2 block ->
  v1 = v2.
Proof.
  intros H1 H2 Heq. rewrite !serialise_roff_run in Heq.
  apply append_inv_head in Heq. apply (f_equal unroff) in Heq.
  rewrite !unroff_escapeRoff in Heq by assumption.
  destruct block.
  - now apply (append_inv_tail_char "010").
  - now rewrite !append_nil_r in Heq.
Qed.

Lemma serialise_roff_injective_witness :
  plain ".so \x" = true
  /\ serialise_roff "" ".so \x" true = "\&.so \ex" ++ NL
  /\ ".so \x" = ".so \x".
Proof.
  split; [reflexivity|]. split; [reflexivity|].
  exact (serialise_roff_injective "" ".so \x" ".so \x" true
           eq_refl eq_refl eq_refl).
Defined.

(** White space at the start of the text is dropped by both escapers,
    whatever it is and however much; text that is white space only gives
    an empty title, an empty inline argument and an empty roff line. *)
Theorem escapers_skip_leading_space (op : hbuf) (ws v : string) (block : bool) :
  string_forall isspace ws = true ->
  serialise_roff op (ws ++ v) block = serialise_roff op v block
  /\ html_title op (ws ++ v) = html_title op v
  /\ serialise_roff op ws block = op ++ (if block then NL else "")
  /\ html_title op ws = op.
Proof.
  intros Hws. rewrite !serialise_roff_run, !html_title_run.
  unfold Spec.escapeRoff, Spec.escapeTitle.
  rewrite (drop_while_space_app ws v Hws), (drop_while_space_all ws Hws).
  cbn [Spec.starts_with Spec.subst_chars andb append].
  rewrite andb_false_r, append_nil_r. repeat split; reflexivity.
Qed.

Lemma escapers_skip_leading_space_witness :
  string_forall isspace (" " ++ NL) = true
  /\ serialise_roff "" ((" " ++ NL) ++ "x y") true = "x y" ++ NL.
Proof.
  split; [reflexivity|].
  exact (eq_trans
           (proj1 (escapers_skip_leading_space "" (" " ++ NL) "x y" true
                     eq_refl))
           eq_refl).
Defined.

(* ================================================================== *)
(** ** Further properties: the date normalisers *)

Lemma isdigit_digit_char (d : N) : (d < 10)%N -> isdigit (digit_char d) = true.
Proof.
  intros H.
  assert (Hd : (d = 0 \/ d = 1 \/ d = 2 \/ d = 3 \/ d = 4 \/ d = 5 \/ d = 6
                \/ d = 7 \/ d = 8 \/ d = 9)%N) by lia.
  repeat (destruct Hd as [->|Hd]; [reflexivity|]). now subst d.
Qed.

Lemma utoa_all_digits (n : N) : string_forall isdigit (utoa n) = true.
Proof.
  induction n as [n Hn | n Hn IH] using decimal_ind;
    rewrite utoa_unfold, string_forall_app; cbn [string_forall].
  - rewrite (proj2 (N.ltb_lt n 10) Hn). cbn [string_forall andb].
    rewrite isdigit_digit_char; [reflexivity|]. now apply N.mod_lt.
  - rewrite (proj2 (N.ltb_ge n 10) Hn), IH.
    rewrite isdigit_digit_char; [reflexivity|]. now apply N.mod_lt.
Qed.

Lemma zeros_all_digits (k : nat) : string_forall isdigit (zeros k) = true.
Proof. induction k as [|k IH]; simpl; [reflexivity | exact IH]. Qed.

Lemma canonical_date_chars (y m d : N) :
  string_forall date_char (Spec.canonical_date y m d) = true.
Proof.
  assert (Hd : forall s, string_forall isdigit s = true ->
                         string_forall date_char s = true).
  { apply string_forall_weaken. intros c Hc. unfold date_char. now rewrite Hc. }
  unfold Spec.canonical_date, zero_pad.
  rewrite !string_forall_app.
  rewrite (Hd (utoa y)), (Hd (utoa m)), (Hd (utoa d)), !(Hd (zeros _))
    by (apply utoa_all_digits || apply zeros_all_digits).
  reflexivity.
Qed.

Lemma substring_forall (p : ascii -> bool) (s : string) :
  forall n, string_forall p s = true ->
            string_forall p (substring 0 n s) = true.
Proof.
  induction s as [|c s IH]; intros n H; destruct n as [|n]; simpl in *;
    try reflexivity.
  apply andb_true_iff in H as [Hc Hs]. now rewrite Hc, IH.
Qed.

Lemma substring_length (s : string) :
  forall n, String.length (substring 0 n s) = Nat.min n (String.length s).
Proof.
  induction s as [|c s IH]; intros n; destruct n as [|n]; simpl;
    try reflexivity.
  now rewrite IH.
Qed.

Lemma snprintf_date_shape (y m d : N) :
  let s := snprintf 32 "%u-%.2u-%.2u" [U y; U m; U d] in
  7 <= String.length s <= 31 /\ string_forall date_char s = true.
Proof.
  cbv zeta. unfold snprintf. rewrite sprintf_date. split.
  - rewrite substring_length, canonical_date_length.
    pose proof (utoa_length_pos y). simpl Nat.sub. lia.
  - apply substring_forall, canonical_date_chars.
Qed.

Lemma normalizeDate_some (v s : string) :
  normalizeDate v = Some s ->
  exists y m d, s = snprintf 32 "%u-%.2u-%.2u" [U y; U m; U d].
Proof.
  rewrite normalizeDate_grammars. cbv zeta.
  destruct (fst (sscanf v "%u/%u/%u") =? 3)%Z.
  - intros [= <-]. eauto.
  - destruct (fst (sscanf v "%u-%u-%u") =? 3)%Z; [|discriminate].
    intros [= <-]. eauto.
Qed.

Lemma normalizeRcsDate_some (v s : string) :
  normalizeRcsDate v = Some s ->
  exists y m d, s = snprintf 32 "%u-%.2u-%.2u" [U y; U m; U d].
Proof.
  rewrite normalizeRcsDate_grammar. cbv zeta.
  destruct (String.length v <? 7)%nat; [discriminate|].
  destruct (fst (sscanf (advance 7 v) "%u/%u/%u %u:%u:%u") =? 6)%Z;
    [|discriminate].
  intros [= <-]. eauto.
Qed.

(** A date that a normaliser returns has 7 to 31 characters, so that it
    fits the 32 bytes of the static buffer with its NUL, and consists of
    decimal digits and hyphens only, whatever the input was. *)
Theorem normalised_date_shape (v s : string) :
  normalizeDate v = Some s \/ normalizeRcsDate v = Some s ->
  7 <= String.length s <= 31 /\ string_forall date_char s = true.
Proof.
  intros [H|H];
    [apply normalizeDate_some in H | apply normalizeRcsDate_some in H];
    destruct H as (y & m & d & ->); apply snprintf_date_shape.
Qed.

Lemma normalised_date_shape_witness :
  normalizeDate "0/0/0 and more" = Some "0-00-00"
  /\ 7 <= String.length "0-00-00" <= 31
  /\ string_forall date_char "0-00-00" = true.
Proof.
  split; [reflexivity|].
  exact (normalised_date_shape "0/0/0 and more" "0-00-00"
           (or_introl eq_refl)).
Defined.

(** The result of [date2str] lives in one static buffer: a second
    successful call returns the same pointer and replaces the string the
    first result points to.  A call that fails, and any call of
    [rcsdate2str], leave that string as it is. *)
Theorem date2str_result_overwritten (v1 v2 s1 s2 : string) (w : world) :
  normalizeDate v1 = Some s1 -> normalizeDate v2 = Some s2 ->
  exists (p : charptr) (w1 w2 : world),
    date2str (Some v1) w = Some (Some p, w1)
    /\ load w1 "" p = s1
    /\ date2str (Some v2) w1 = Some (Some p, w2)
    /\ load w2 "" p = s2
    /\ (forall v, normalizeDate v = None ->
          exists w3, date2str (Some v) w1 = Some (None, w3)
                     /\ load w3 "" p = s1)
    /\ (forall v, exists r w3,
          rcsdate2str (Some v) w1 = Some (r, w3) /\ load w3 "" p = s1).
Proof.
  intros H1 H2.
  exists Ptr_date2str_buf, (set_date2str_buf s1 w),
    (set_date2str_buf s2 (set_date2str_buf s1 w)).
  rewrite !date2str_run, H1, H2. repeat split.
  - intros v Hv. rewrite date2str_run, Hv. eexists. split; reflexivity.
  - intros v. rewrite rcsdate2str_run.
    destruct (normalizeRcsDate v); eexists _, _; split; reflexivity.
Qed.

Lemma date2str_result_overwritten_witness :
  normalizeDate "2020-01-01" = Some "2020-01-01"
  /\ normalizeDate "2021/2/2" = Some "2021-02-02"
  /\ exists (p : charptr) (w1 w2 : world),
       date2str (Some "2020-01-01") world0 = Some (Some p, w1)
       /\ load w1 "" p = "2020-01-01"
       /\ date2str (Some "2021/2/2") w1 = Some (Some p, w2)
       /\ load w2 "" p = "2021-02-02".
Proof.
  split; [reflexivity|]. split; [reflexivity|].
  destruct (date2str_result_overwritten "2020-01-01" "2021/2/2"
              "2020-01-01" "2021-02-02" world0 eq_refl eq_refl)
    as (p & w1 & w2 & Ha & Hb & Hc & Hd & _).
  exists p, w1, w2. repeat split; assumption.
Defined.

Lemma skip_space_app (ws v : string) :
  string_forall isspace ws = true -> skip_space (ws ++ v) = skip_space v.
Proof.
  induction ws as [|c ws IH]; simpl; [reflexivity|].
  intros H. apply andb_true_iff in H as [Hc Hws]. rewrite Hc. now apply IH.
Qed.

Lemma scan_u_skip (ws v : string) :
  string_forall isspace ws = true -> scan_u (ws ++ v) = scan_u v.
Proof. intros H. unfold scan_u. now rewrite skip_space_app. Qed.

Lemma scan_conv_skip (ds : list directive) (ws num rest : string)
    (acc : list N) :
  string_forall isspace ws = true ->
  numeral num = true -> no_digit_ahead rest = true ->
  scan (Conv_u :: ds) (ws ++ num ++ rest) acc
  = scan ds rest (acc ++ [uint_of_numeral num]).
Proof.
  intros Hws Hn Hr. cbn [scan].
  now rewrite scan_u_skip, scan_u_numeral.
Qed.

Lemma isspace_facts (c : ascii) :
  isspace c = true ->
  isdigit c = false /\ (c =? "/")%char = false /\ (c =? "-")%char = false.
Proof.
  destruct c as [[] [] [] [] [] [] [] []]; vm_compute; intros H;
    try discriminate H; repeat split.
Qed.

(** White space is taken before each of the three numbers, not after one:
    with white space before the year, the month or the day the date is the
    same as without; with white space between a number and what follows
    it there is no date. *)
Theorem date2str_white_space (w1 w2 w3 ys ms ds rest : string) :
  string_forall isspace w1 = true -> string_forall isspace w2 = true ->
  string_forall isspace w3 = true ->
  numeral ys = true -> numeral ms = true -> numeral ds = true ->
  no_digit_ahead rest = true ->
  normalizeDate (w1 ++ ys ++ "/" ++ w2 ++ ms ++ "/" ++ w3 ++ ds ++ rest)
  = normalizeDate (ys ++ "/" ++ ms ++ "/" ++ ds ++ rest)
  /\ normalizeDate (w1 ++ ys ++ "-" ++ w2 ++ ms ++ "-" ++ w3 ++ ds ++ rest)
     = normalizeDate (ys ++ "-" ++ ms ++ "-" ++ ds ++ rest)
  /\ normalizeDate (ys ++ "/" ++ ms ++ "/" ++ ds ++ rest) <> None
  /\ (forall (c : ascii) (tail : string),
        isspace c = true -> normalizeDate (ys ++ String c tail) = None).
Proof.
  intros Hw1 Hw2 Hw3 Hy Hm Hd Hr.
  destruct (normalizeDate_numerals ys ms ds rest Hy Hm Hd Hr) as [E1 E2].
  rewrite E1, E2.
  assert (Fslash : [Conv_u; Ordinary "/"; Conv_u; Ordinary "/"; Conv_u]
                   = directives "%u/%u/%u") by reflexivity.
  assert (Fhyphen : [Conv_u; Ordinary "-"; Conv_u; Ordinary "-"; Conv_u]
                    = directives "%u-%u-%u") by reflexivity.
  split; [|split; [|split; [discriminate|]]].
  - rewrite normalizeDate_grammars. cbv zeta. unfold sscanf.
    rewrite <- Fslash. cbn [append].
    rewrite scan_conv_skip, scan_ordinary by (assumption || reflexivity).
    rewrite scan_conv_skip, scan_ordinary by (assumption || reflexivity).
    rewrite scan_conv_skip by assumption. reflexivity.
  - rewrite normalizeDate_grammars. cbv zeta. unfold sscanf.
    rewrite <- Fslash, <- Fhyphen. cbn [append].
    rewrite (scan_conv_skip _ w1 ys) by (assumption || reflexivity).
    rewrite scan_mismatch by reflexivity. cbn [fst snd app List.length].
    rewrite scan_conv_skip, scan_ordinary by (assumption || reflexivity).
    rewrite scan_conv_skip, scan_ordinary by (assumption || reflexivity).
    rewrite scan_conv_skip by assumption. reflexivity.
  - intros c tail Hc. destruct (isspace_facts c Hc) as (Hdig & Hsl & Hhy).
    rewrite normalizeDate_grammars. cbv zeta. unfold sscanf.
    rewrite <- Fslash, <- Fhyphen.
    rewrite !scan_conv by (assumption || (cbn; now rewrite Hdig)).
    rewrite !scan_mismatch by assumption. reflexivity.
Qed.

Lemma date2str_white_space_witness :
  normalizeDate (" " ++ "2021" ++ "/" ++ NL ++ "3" ++ "/" ++ " " ++ "5" ++ "")
  = Some "2021-03-05"
  /\ normalizeDate ("2021" ++ String " " "/3/5") = None.
Proof.
  destruct (date2str_white_space " " NL " " "2021" "3" "5" ""
              eq_refl eq_refl eq_refl eq_refl eq_refl eq_refl eq_refl)
    as (H1 & _ & _ & H4).
  split.
  - exact (eq_trans H1 eq_refl).
  - exact (H4 " "%char "/3/5" eq_refl).
Defined.

(** What [date2str] turns down, each time with one warning and nothing
    else changed: a value of white space only, the empty one among them;
    two numbers where three are due; and separators that differ, a slash
    and then a hyphen or a hyphen and then a slash, whatever follows. *)
Theorem date2str_rejects (ys ms : string) (w : world) :
  numeral ys = true -> numeral ms = true ->
  let warned :=
    Some (@None charptr,
          set_stderr (stderr w ++ ["malformed ISO-8601 date"]) w) in
  (forall blank, string_forall isspace blank = true ->
                 date2str (Some blank) w = warned)
  /\ date2str (Some (ys ++ "/" ++ ms)) w = warned
  /\ date2str (Some (ys ++ "-" ++ ms)) w = warned
  /\ (forall tail, date2str (Some (ys ++ "/" ++ ms ++ "-" ++ tail)) w = warned)
  /\ (forall tail, date2str (Some (ys ++ "-" ++ ms ++ "/" ++ tail)) w = warned).
Proof.
  intros Hy Hm warned.
  assert (Fslash : [Conv_u; Ordinary "/"; Conv_u; Ordinary "/"; Conv_u]
                   = directives "%u/%u/%u") by reflexivity.
  assert (Fhyphen : [Conv_u; Ordinary "-"; Conv_u; Ordinary "-"; Conv_u]
                    = directives "%u-%u-%u") by reflexivity.
  assert (Hnone : forall v, normalizeDate v = None ->
                            date2str (Some v) w = warned).
  { intros v Hv. now apply date2str_warns. }
  split; [|split; [|split; [|split]]].
  - intros blank Hb. apply Hnone.
    rewrite normalizeDate_grammars. cbv zeta. unfold sscanf.
    rewrite <- Fslash, <- Fhyphen. cbn [scan].
    assert (Hu : scan_u blank = NoInput).
    { rewrite <- (append_nil_r blank). now rewrite scan_u_skip. }
    rewrite Hu. reflexivity.
  - apply Hnone. rewrite normalizeDate_grammars. cbv zeta. unfold sscanf.
    rewrite <- Fslash, <- Fhyphen. cbn [append].
    rewrite !scan_conv by (assumption || reflexivity).
    rewrite scan_ordinary, scan_mismatch by reflexivity.
    rewrite <- (append_nil_r ms).
    rewrite scan_conv by (assumption || reflexivity). reflexivity.
  - apply Hnone. rewrite normalizeDate_grammars. cbv zeta. unfold sscanf.
    rewrite <- Fslash, <- Fhyphen. cbn [append].
    rewrite !scan_conv by (assumption || reflexivity).
    rewrite scan_ordinary, scan_mismatch by reflexivity.
    rewrite <- (append_nil_r ms).
    rewrite scan_conv by (assumption || reflexivity). reflexivity.
  - intros tail. apply Hnone.
    rewrite normalizeDate_grammars. cbv zeta. unfold sscanf.
    rewrite <- Fslash, <- Fhyphen. cbn [append].
    rewrite !scan_conv by (assumption || reflexivity).
    rewrite scan_ordinary, !scan_mismatch by reflexivity.
    rewrite scan_conv by (assumption || reflexivity).
    rewrite scan_mismatch by reflexivity. reflexivity.
  - intros tail. apply Hnone.
    rewrite normalizeDate_grammars. cbv zeta. unfold sscanf.
    rewrite <- Fslash, <- Fhyphen. cbn [append].
    rewrite !scan_conv by (assumption || reflexivity).
    rewrite scan_ordinary, !scan_mismatch by reflexivity.
    rewrite scan_conv by (assumption || reflexivity).
    rewrite scan_mismatch by reflexivity. reflexivity.
Qed.

Lemma date2str_rejects_witness :
  numeral "2021" = true /\ numeral "3" = true
  /\ date2str (Some ("2021" ++ "/" ++ "3" ++ "-" ++ "5")) world0
     = Some (None, set_stderr ["malformed ISO-8601 date"] world0).
Proof.
  split; [reflexivity|]. split; [reflexivity|].
  exact (proj1 (proj2 (proj2 (proj2
           (date2str_rejects "2021" "3" world0 eq_refl eq_refl)))) "5").
Defined.




(** The seven characters [rcsdate2str] skips are not looked at: any seven
    do.  After them, a date with its time gives what [date2str] gives for
    the date alone, whatever the time is; a date without a time is turned
    down. *)
Theorem rcsdate2str_as_date2str
    (tag tag' ys ms ds hs mins ss rest : string) :
  String.length tag = 7 -> String.length tag' = 7 ->
  numeral ys = true -> numeral ms = true -> numeral ds = true ->
  numeral hs = true -> numeral mins = true -> numeral ss = true ->
  no_digit_ahead rest = true ->
  (forall v, normalizeRcsDate (tag ++ v) = normalizeRcsDate (tag' ++ v))
  /\ normalizeRcsDate (tag ++ ys ++ "/" ++ ms ++ "/" ++ ds ++ " " ++ hs
                           ++ ":" ++ mins ++ ":" ++ ss ++ rest)
     = normalizeDate (ys ++ "/" ++ ms ++ "/" ++ ds)
  /\ normalizeRcsDate (tag ++ ys ++ "/" ++ ms ++ "/" ++ ds) = None.
Proof.
  intros Ht Ht' Hy Hm Hd Hh Hmin Hs Hr.
  assert (Hskip : forall (t v : string),
             String.length t = 7 ->
             normalizeRcsDate (t ++ v)
             = if (fst (sscanf v "%u/%u/%u %u:%u:%u") =? 6)%Z
               then Some (snprintf 32 "%u-%.2u-%.2u"
                            [U (stored (snd (sscanf v "%u/%u/%u %u:%u:%u")) 0);
                             U (stored (snd (sscanf v "%u/%u/%u %u:%u:%u")) 1);
                             U (stored (snd (sscanf v "%u/%u/%u %u:%u:%u")) 2)])
               else None).
  { intros t v Hlen. rewrite normalizeRcsDate_grammar. cbv zeta.
    assert (Hge : (String.length (t ++ v) <? 7)%nat = false).
    { apply Nat.ltb_ge. rewrite append_length. lia. }
    rewrite Hge, <- Hlen, advance_app. reflexivity. }
  split; [|split].
  - intros v. now rewrite !Hskip.
  - rewrite normalizeRcsDate_numerals by assumption.
    rewrite <- (append_nil_r ds) at 2.
    destruct (normalizeDate_numerals ys ms ds "" Hy Hm Hd eq_refl) as [E _].
    now rewrite E.
  - rewrite Hskip by exact Ht. unfold sscanf.
    change (directives "%u/%u/%u %u:%u:%u")
      with [Conv_u; Ordinary "/"; Conv_u; Ordinary "/"; Conv_u; White;
            Conv_u; Ordinary ":"; Conv_u; Ordinary ":"; Conv_u].
    cbn [append].
    rewrite scan_conv, scan_ordinary by (assumption || reflexivity).
    rewrite scan_conv, scan_ordinary by (assumption || reflexivity).
    rewrite <- (append_nil_r ds).
    rewrite scan_conv by (assumption || reflexivity). reflexivity.
Qed.

Lemma rcsdate2str_as_date2str_witness :
  normalizeRcsDate ("$Date: " ++ "2021" ++ "/" ++ "03" ++ "/" ++ "05" ++ " "
                      ++ "10" ++ ":" ++ "11" ++ ":" ++ "12" ++ " $")
  = Some "2021-03-05"
  /\ normalizeRcsDate ("$Date: " ++ "2021" ++ "/" ++ "03" ++ "/" ++ "05")
     = None.
Proof.
  destruct (rcsdate2str_as_date2str "$Date: " "1234567" "2021" "03" "05"
              "10" "11" "12" " $"
              eq_refl eq_refl eq_refl eq_refl eq_refl eq_refl eq_refl
              eq_refl eq_refl) as (_ & H2 & H3).
  split; [exact (eq_trans H2 eq_refl) | exact H3].
Defined.

(* ================================================================== *)
(** ** Further properties: the envelope and the pipeline *)

Lemma meta_loop_world (m : list lowdown_meta) :
  forall (title : string) (author : option string) (date : option charptr)
         (w : world),
  exists r w',
    meta_loop m title author date w = Some (r, w')
    /\ clock w' = clock w
    /\ hbufs w' = hbufs w
    /\ stderr w' = (stderr w ++ warnings m)%list.
Proof.
  induction m as [|[k v] m IH]; intros title author date w.
  - exists (title, author, date), w. cbn. now rewrite app_nil_r.
  - cbn [meta_loop key value]. unfold streq, warnings. cbn [flat_map].
    fold (warnings m). unfold warning_of. rewrite !has_key_entry.
    cbn [value].
    destruct (String.eqb_spec k "title") as [->|Htitle].
    { destruct (IH v author date w) as (r & w' & Heq & Hc & Hh & Hs).
      exists r, w'. now rewrite Heq. }
    destruct (String.eqb_spec k "author") as [->|Hauthor].
    { destruct (IH title (Some v) date w) as (r & w' & Heq & Hc & Hh & Hs).
      exists r, w'. now rewrite Heq. }
    destruct (String.eqb_spec k "rcsdate") as [->|Hrcs].
    { unfold bind. rewrite rcsdate2str_run.
      destruct (normalizeRcsDate v) as [s|].
      - destruct (IH title author (Some Ptr_rcsdate2str_buf)
                    (set_rcsdate2str_buf s w))
          as (r & w' & Heq & Hc & Hh & Hs).
        exists r, w'. now rewrite Heq.
      - destruct (IH title author None
                    (set_stderr (stderr w ++ ["malformed RCS date"]) w))
          as (r & w' & Heq & Hc & Hh & Hs).
        exists r, w'. rewrite Heq. repeat split; try assumption.
        rewrite Hs. cbn [stderr set_stderr]. now rewrite <- app_assoc. }
    destruct (String.eqb_spec k "date") as [->|Hdate].
    { unfold bind. rewrite date2str_run.
      destruct (normalizeDate v) as [s|].
      - destruct (IH title author (Some Ptr_date2str_buf)
                    (set_date2str_buf s w))
          as (r & w' & Heq & Hc & Hh & Hs).
        exists r, w'. now rewrite Heq.
      - destruct (IH title author None
                    (set_stderr (stderr w ++ ["malformed ISO-8601 date"]) w))
          as (r & w' & Heq & Hc & Hh & Hs).
        exists r, w'. rewrite Heq. repeat split; try assumption.
        rewrite Hs. cbn [stderr set_stderr]. now rewrite <- app_assoc. }
    destruct (IH title author date w) as (r & w' & Heq & Hc & Hh & Hs).
    exists r, w'. now rewrite Heq.
Qed.

(** With a configuration the preamble is defined in every world, whatever
    the clock shows.  The call frees the buffer header it allocates,
    leaves the clock alone, and writes one warning for every [rcsdate] or
    [date] entry that does not normalise, in the order of the entries:
    also for an entry that a later one replaces, and also for HTML, which
    has no use for the date.  The postamble call changes nothing. *)
Theorem standalone_open_warnings (o : lowdown_opts) (m : list lowdown_meta)
    (w : world) :
  (exists (out : string) (w' : world),
      lowdown_standalone_open (Some o) m w = Some (out, w')
      /\ clock w' = clock w
      /\ hbufs w' = hbufs w
      /\ stderr w' = (stderr w ++ warnings m)%list)
  /\ (exists out : string,
         lowdown_standalone_close (Some o) w = Some (out, w)).
Proof.
  split; [|rewrite lowdown_standalone_close_run; eauto].
  unfold lowdown_standalone_open, resolve_meta.
  unfold bind at 1. unfold hbuf_new. unfold bind at 1. unfold bind at 1.
  destruct (meta_loop_world m "Untitled article" None None
              (set_hbufs (S (hbufs w)) w))
    as ([[title author] date] & w1 & -> & Hc & Hh & Hs).
  cbn [clock hbufs stderr set_hbufs] in Hc, Hh, Hs.
  assert (Hend : forall (out : string) (x : world),
             clock x = clock w -> hbufs x = S (hbufs w) ->
             stderr x = (stderr w ++ warnings m)%list ->
             exists out' w',
               Some (out, set_hbufs (pred (hbufs x)) x) = Some (out', w')
               /\ clock w' = clock w /\ hbufs w' = hbufs w
               /\ stderr w' = (stderr w ++ warnings m)%list).
  { intros out x Hx1 Hx2 Hx3. exists out, (set_hbufs (pred (hbufs x)) x).
    cbn. rewrite Hx2. repeat split; assumption. }
  unfold localtime_now, deref, ret, bind, hbuf_free.
  destruct date as [p|]; destruct (type o); now apply Hend.
Qed.

(** The HTML preamble is the fixed head, the escaped title of the last
    [title] entry and the fixed rest, for every metadata sequence and in
    every world: no date entry and no clock changes it. *)
Theorem standalone_open_html (f fl : N) (m : list lowdown_meta) (w : world) :
  option_map fst
    (lowdown_standalone_open
       (Some {| type := LOWDOWN_HTML; feat := f; oflags := fl |}) m w)
  = Some (html_head ++ Spec.escapeTitle (resolved_title m) ++ html_neck).
Proof.
  unfold lowdown_standalone_open, resolve_meta.
  unfold bind at 1. unfold hbuf_new. unfold bind at 1. unfold bind at 1.
  destruct (meta_loop_run m "Untitled article" None None
              (set_hbufs (S (hbufs w)) w))
    as (date & w1 & -> & _).
  fold (resolved_title m).
  unfold localtime_now, deref, ret, bind, hbuf_free, HBUF_PUTSL.
  destruct date as [p|]; cbn [type option_map fst];
    rewrite html_title_run; cbn [append]; now rewrite !append_assoc.
Qed.

(** The preamble with a configuration, in a world whose clock shows a
    calendar date: for HTML the head, the escaped title and the rest; for
    NROFF the [.DA] line with the resolved date, [.TL], the title as a
    roff line, and [.AU] with the author as a roff line when there is one;
    for MAN the [.TH] line with the title as a quoted argument, the section
    7 and the resolved date.  The buffer header is freed. *)
Theorem standalone_open_preamble (o : lowdown_opts) (m : list lowdown_meta)
    (w : world) :
  calendar (clock w) ->
  exists w',
    lowdown_standalone_open (Some o) m w
    = Some (match type o with
            | LOWDOWN_HTML =>
                html_head ++ Spec.escapeTitle (resolved_title m) ++ html_neck
            | LOWDOWN_NROFF =>
                (".DA " ++ resolved_date m (clock w) ++ NL ++ ".TL" ++ NL)
                  ++ Spec.escapeRoff (resolved_title m) true
                  ++ match resolved_author m with
                     | Some a => ".AU" ++ NL ++ Spec.escapeRoff a true
                     | None => ""
                     end
            | LOWDOWN_MAN =>
                (".TH " ++ DQ) ++ Spec.escapeRoff (resolved_title m) false
                  ++ DQ ++ " 7 " ++ resolved_date m (clock w) ++ NL
            end, w')
    /\ hbufs w' = hbufs w.
Proof. exact (lowdown_standalone_open_run o m w). Qed.

Lemma standalone_open_preamble_witness :
  calendar (clock world0)
  /\ exists w',
       lowdown_standalone_open
         (Some {| type := LOWDOWN_MAN; feat := 0; oflags := 0 |})
         [entry "title" (" lowdown " ++ DQ ++ "x" ++ DQ);
          entry "date" "2021-3-5"] world0
       = Some (".TH " ++ DQ ++ "lowdown \(dqx\(dq" ++ DQ ++ " 7 2021-03-05"
                 ++ NL, w').
Proof.
  assert (Hcal : calendar (clock world0)).
  { unfold calendar, world0. cbn. lia. }
  split; [exact Hcal|].
  destruct (standalone_open_preamble
              {| type := LOWDOWN_MAN; feat := 0; oflags := 0 |}
              [entry "title" (" lowdown " ++ DQ ++ "x" ++ DQ);
               entry "date" "2021-3-5"] world0 Hcal) as (w' & H & _).
  exists w'. exact H.
Defined.

Lemma roff_char_no_newline (b : bool) (c : ascii) :
  count_char "010" (Spec.roff_char b c) = 0.
Proof. destruct b, c as [[] [] [] [] [] [] [] []]; reflexivity. Qed.

Lemma title_char_no_newline (c : ascii) :
  count_char "010" (Spec.title_char c) = 0.
Proof. destruct c as [[] [] [] [] [] [] [] []]; reflexivity. Qed.

Lemma escapeRoff_newlines (v : string) (b : bool) :
  count_char "010" (Spec.escapeRoff v b) = if b then 1 else 0.
Proof.
  unfold Spec.escapeRoff. rewrite !count_char_app.
  rewrite (count_char_subst _ _ (roff_char_no_newline b)).
  destruct b; cbn [andb]; [|reflexivity].
  now destruct (Spec.starts_with "." (Spec.drop_while isspace v)).
Qed.

Lemma resolved_date_chars (m : list lowdown_meta) (t : tm) :
  string_forall date_char (resolved_date m t) = true.
Proof.
  unfold resolved_date, today.
  destruct (Spec.last_entry Spec.is_date_entry m) as [e|];
    [|apply canonical_date_chars].
  unfold date_of_entry.
  destruct (Spec.has_key "rcsdate" e).
  - destruct (normalizeRcsDate (value e)) as [s|] eqn:Hs;
      [|apply canonical_date_chars].
    destruct (normalizeRcsDate_some _ _ Hs) as (y & mo & d & ->).
    apply snprintf_date_shape.
  - destruct (normalizeDate (value e)) as [s|] eqn:Hs;
      [|apply canonical_date_chars].
    destruct (normalizeDate_some _ _ Hs) as (y & mo & d & ->).
    apply snprintf_date_shape.
Qed.

(** The number of lines of the preamble is fixed by the output type, and
    for NROFF by whether there is an author: 8 for HTML, 1 for MAN, 3 or 5
    for NROFF.  Nothing in the title, the author or the dates of the
    metadata adds a line or takes one away. *)
Theorem standalone_open_lines (o : lowdown_opts) (m : list lowdown_meta)
    (w : world) :
  calendar (clock w) ->
  exists (out : string) (w' : world),
    lowdown_standalone_open (Some o) m w = Some (out, w')
    /\ count_char "010" out = preamble_lines (type o) (resolved_author m).
Proof.
  intros Hcal.
  destruct (lowdown_standalone_open_run o m w Hcal) as (w' & -> & _).
  eexists _, w'. split; [reflexivity|].
  assert (Hdate : count_char "010" (resolved_date m (clock w)) = 0).
  { apply (count_char_absent date_char); [reflexivity|].
    apply resolved_date_chars. }
  destruct (type o); cbn [preamble_lines].
  - rewrite !count_char_app. unfold Spec.escapeTitle.
    now rewrite (count_char_subst _ _ title_char_no_newline).
  - rewrite !count_char_app, escapeRoff_newlines, Hdate. reflexivity.
  - rewrite !count_char_app, escapeRoff_newlines, Hdate.
    destruct (resolved_author m) as [a|].
    + rewrite !count_char_app, escapeRoff_newlines. reflexivity.
    + reflexivity.
Qed.

Lemma standalone_open_lines_witness :
  calendar (clock world0)
  /\ exists (out : string) (w' : world),
       lowdown_standalone_open
         (Some {| type := LOWDOWN_NROFF; feat := 0; oflags := 0 |})
         [entry "author" ("A" ++ NL ++ ".B")] world0 = Some (out, w')
       /\ count_char "010" out = 5.
Proof.
  assert (Hcal : calendar (clock world0)).
  { unfold calendar, world0. cbn. lia. }
  split; [exact Hcal|].
  exact (standalone_open_lines
           {| type := LOWDOWN_NROFF; feat := 0; oflags := 0 |}
           [entry "author" ("A" ++ NL ++ ".B")] world0 Hcal).
Defined.

Lemma known_key_false (k v : string) :
  known_key {| key := k; value := v |} = false ->
  (k =? "title")%string = false /\ (k =? "author")%string = false
  /\ (k =? "rcsdate")%string = false /\ (k =? "date")%string = false.
Proof.
  unfold known_key. rewrite !has_key_entry. intros H.
  apply orb_false_iff in H as [H Hd]. apply orb_false_iff in H as [H Hr].
  apply orb_false_iff in H as [Ht Ha]. auto.
Qed.

Lemma meta_loop_known_keys (m : list lowdown_meta) :
  forall (title : string) (author : option string) (date : option charptr)
         (w : world),
    meta_loop (filter known_key m) title author date w
    = meta_loop m title author date w.
Proof.
  induction m as [|[k v] m IH]; intros title author date w; [reflexivity|].
  cbn [filter]. destruct (known_key {| key := k; value := v |}) eqn:Hk.
  - cbn [meta_loop key value]. unfold streq, bind.
    destruct (k =? "title")%string; [apply IH|].
    destruct (k =? "author")%string; [apply IH|].
    destruct (k =? "rcsdate")%string.
    { destruct (rcsdate2str (Some v) w) as [[d w1]|]; [apply IH|reflexivity]. }
    destruct (k =? "date")%string.
    { destruct (date2str (Some v) w) as [[d w1]|]; [apply IH|reflexivity]. }
    apply IH.
  - destruct (known_key_false k v Hk) as (Ht & Ha & Hr & Hd).
    cbn [meta_loop key value]. unfold streq. rewrite Ht, Ha, Hr, Hd.
    apply IH.
Qed.

(** Entries with a key other than [title], [author], [rcsdate] and [date]
    count for nothing: with or without them the preamble is the same and
    so is the world after the call.  Keys are compared as they are, so
    [Title] or [DATE] are such other keys. *)
Theorem standalone_open_other_keys (opts : option lowdown_opts)
    (m : list lowdown_meta) (w : world) :
  lowdown_standalone_open opts (filter known_key m) w
  = lowdown_standalone_open opts m w
  /\ known_key (entry "Title" "x") = false
  /\ known_key (entry "DATE" "2021-3-5") = false.
Proof.
  split; [|split; reflexivity].
  unfold lowdown_standalone_open, resolve_meta.
  unfold bind at 1 3. unfold hbuf_new. unfold bind at 1 3.
  unfold bind at 1 3. now rewrite meta_loop_known_keys.
Qed.

Section PipelineHeaders.

Variables hrend hdoc : Type.
Variable hrend_html_new : N -> N -> hrend.
Variable hrend_nroff_new : N -> bool -> hrend.
Variable hdoc_new : hrend -> option lowdown_opts -> N -> nat -> bool -> hdoc.
Variable hdoc_render : hdoc -> hbuf -> string -> hbuf * list lowdown_meta.
Variables hsmrt_html hsmrt_nroff : hbuf -> string -> hbuf.
Variable LOWDOWN_SMARTY : N.

Local Abbreviation buf :=
  (lowdown_buf hrend hdoc hrend_html_new hrend_nroff_new hdoc_new
     hdoc_render hsmrt_html hsmrt_nroff LOWDOWN_SMARTY).
Local Abbreviation file :=
  (lowdown_file hrend hdoc hrend_html_new hrend_nroff_new hdoc_new
     hdoc_render hsmrt_html hsmrt_nroff LOWDOWN_SMARTY).
Local Abbreviation flag := (smarty LOWDOWN_SMARTY).

(** Counting the buffer headers that [hbuf_new] allocates and [hbuf_free]
    releases: [lowdown_buf] releases both of its headers when the
    typographic pass runs, and leaves one, that of [spb], allocated when it
    does not; nothing else of the world changes.  [lowdown_file] adds
    nothing to that: none is left after a read error, and what
    [lowdown_buf] leaves otherwise. *)
Theorem lowdown_buf_headers (opts : option lowdown_opts) (w : world) :
  (forall data : string,
      exists r,
        buf opts data w
        = Some (r, set_hbufs (hbufs w + (if flag opts then 0 else 1)) w))
  /\ (forall fin : FILE,
         exists r,
           file opts fin w
           = Some (r, set_hbufs
                        (hbufs w
                         + (if read_error fin || flag opts then 0 else 1))
                        w)).
Proof.
  split.
  - intros data. rewrite lowdown_buf_run.
    destruct (flag opts); [rewrite Nat.add_0_r | rewrite Nat.add_1_r];
      eexists; reflexivity.
  - intros fin. unfold lowdown_file, hbuf_putf.
    unfold bind at 1. unfold hbuf_new at 1. cbn [fst snd].
    destruct (read_error fin); cbn [orb].
    + unfold bind, hbuf_free, ret. cbn.
      rewrite Nat.add_0_r. eexists. reflexivity.
    + unfold bind at 1. rewrite lowdown_buf_run.
      unfold bind, hbuf_free, ret. cbn.
      destruct (flag opts); cbn;
        [rewrite Nat.add_0_r | rewrite Nat.add_1_r]; eexists; reflexivity.
Qed.

End PipelineHeaders.
